(** * Lazy project grid and projects page: a shallow embedding

    The development follows two source files of the portfolio site:

    - [src/components/shared/LazyProjectGrid.tsx]: the per-item lazy wrapper
      ([LazyProjectItem]) and the grid controller ([LazyProjectGrid]);
    - [src/app/projects/page.tsx]: the page that fetches the projects, splits
      them by [type] and mounts one grid per group.

    React state is modelled by explicit state passing.  A component instance
    is a record holding its current props and the value of each [useState]
    cell; the timers registered with [setTimeout] and a discrete clock are
    part of the same record.  State updaters run one after the other against
    the latest committed state, each exactly once, which is how React runs
    them outside of development double invocation. *)

From Stdlib Require Import ZArith QArith List Bool Lia.
From stdpp Require Import base gmap strings list sorting.

Local Open Scope Z_scope.

(** ** Data shared by both files *)

(** The [Project] interface lives in [@/types/project]; the two files only
    read [slug] (the React key) and [type] (compared with string literals). *)
Record Project := mkProject { slug : string; type : string }.

#[global] Instance Project_eq_dec : EqDecision Project.
Proof. solve_decision. Defined.

(** ** JavaScript built-ins used by the grid *)

Module Js.

(** [Array.from({ length: n }, (_, i) => i)]: the length goes through
    [ToLength], so a negative [n] gives the empty array. *)
Definition Array_from_length (n : Z) : list Z :=
  Z.of_nat <$> seq 0 (Z.to_nat n).

(** [new Set(xs)] *)
Definition Set_of (xs : list Z) : gset Z := list_to_set xs.

(** [s.size] *)
Definition Set_size (s : gset Z) : Z := Z.of_nat (size s).

(** [for (let i = lo; i <= hi; i++) acc = body(i, acc)], with the number of
    iterations bounded by [fuel]. *)
Fixpoint for_upto {A} (fuel : nat) (i hi : Z) (body : Z → A → A) (acc : A) : A :=
  match fuel with
  | O => acc
  | S fuel' =>
      if Z.leb i hi then for_upto fuel' (i + 1) hi body (body i acc) else acc
  end.

(** Fuel that lets the loop from [lo] reach its exit test. *)
Definition trip_count (lo hi : Z) : nat := Z.to_nat (hi + 1 - lo).

End Js.

(** ** The grid controller, [LazyProjectGrid] *)

Module Grid.

Record Props := mkProps {
  projects : list Project;
  initialLoad : Z;
  batchSize : Z;
  enableVirtualization : bool;
}.

(** Destructuring defaults of the component's parameter list. *)
Definition with_defaults (ps : list Project) : Props :=
  {| projects := ps; initialLoad := 3; batchSize := 3;
     enableVirtualization := false |}.

(** [projects.length] *)
Definition projects_length (p : Props) : Z := Z.of_nat (length (projects p)).

(** A pending [setTimeout] callback.  The arrow function closes over
    [index], [batchSize] and [projects.length] of the render in which
    [handleItemVisible] was created. *)
Record Timeout := mkTimeout {
  due : Z;
  cb_index : Z;
  cb_batchSize : Z;
  cb_length : Z;
}.

Record State := mkState {
  props : Props;
  loadedItems : gset Z;
  loadedCount : Z;
  isLoading : bool;
  now : Z;
  timers : list Timeout;
}.

Definition set_props (p : Props) (g : State) : State :=
  mkState p (loadedItems g) (loadedCount g) (isLoading g) (now g) (timers g).
Definition setLoadedItems (s : gset Z) (g : State) : State :=
  mkState (props g) s (loadedCount g) (isLoading g) (now g) (timers g).
Definition setLoadedCount (n : Z) (g : State) : State :=
  mkState (props g) (loadedItems g) n (isLoading g) (now g) (timers g).
Definition setIsLoading (b : bool) (g : State) : State :=
  mkState (props g) (loadedItems g) (loadedCount g) b (now g) (timers g).
Definition setTimeout (t : Timeout) (g : State) : State :=
  mkState (props g) (loadedItems g) (loadedCount g) (isLoading g) (now g)
          (timers g ++ [t]).

(** The three [useState] initial values, before any effect has run. *)
Definition first_render (p : Props) : State :=
  mkState p ∅ 0 false 0 [].

(** Body of the effect with dependencies [projects.length, initialLoad]. *)
Definition initialize (g : State) : State :=
  let p := props g in
  let initialItems :=
    Js.Set_of (Js.Array_from_length (Z.min (initialLoad p) (projects_length p))) in
  setLoadedCount (Js.Set_size initialItems) (setLoadedItems initialItems g).

(** Mounting: first render, then the effect runs. *)
Definition mount (p : Props) : State := initialize (first_render p).

(** A later render with props [p'].  The effect runs again exactly when one
    of its two dependencies differs from the previous render. *)
Definition deps_changed (p' : Props) (g : State) : Prop :=
  projects_length p' ≠ projects_length (props g)
  ∨ initialLoad p' ≠ initialLoad (props g).

#[global] Instance deps_changed_dec p' g : Decision (deps_changed p' g).
Proof. unfold deps_changed. apply _. Defined.

Definition rerender (p' : Props) (g : State) : State :=
  if decide (deps_changed p' g) then initialize (set_props p' g)
  else set_props p' g.

(** The updater passed to [setLoadedItems] inside the timer callback. *)
Definition batchLoad (t : Timeout) (currentSet : gset Z) : gset Z :=
  let lo := Z.max 0 (cb_index t - cb_batchSize t) in
  let hi := Z.min (cb_length t - 1) (cb_index t + cb_batchSize t) in
  Js.for_upto (Js.trip_count lo hi) lo hi (λ i batchSet, {[i]} ∪ batchSet)
              currentSet.

(** The timer callback: expand the set, then clear the flag. *)
Definition on_timeout (t : Timeout) (g : State) : State :=
  setIsLoading false (setLoadedItems (batchLoad t (loadedItems g)) g).

(** [handleItemVisible(index)].  Everything happens inside the updater given
    to [setLoadedItems]; [prev] is the committed set.  When [index] is already
    a member the updater returns its untouched copy of [prev] and calls
    nothing else. *)
Definition handleItemVisible (index : Z) (g : State) : State :=
  let prev := loadedItems g in
  if decide (index ∈ prev) then g
  else
    let newSet := {[index]} ∪ prev in
    let g1 := setLoadedCount (Js.Set_size newSet) (setLoadedItems newSet g) in
    if enableVirtualization (props g) then
      setTimeout
        {| due := now g + 100; cb_index := index;
           cb_batchSize := batchSize (props g);
           cb_length := projects_length (props g) |}
        (setIsLoading true g1)
    else g1.

(** The clock advances by [dt]; every timer that is due fires, oldest
    first.  All delays are equal, so registration order is firing order. *)
Definition fire_all (g : State) (ts : list Timeout) : State :=
  foldl (λ acc t, on_timeout t acc) g ts.

Definition elapse (dt : nat) (g : State) : State :=
  let now' := now g + Z.of_nat dt in
  let ready := filter (λ t, due t ≤ now') (timers g) in
  let waiting := filter (λ t, ¬ due t ≤ now') (timers g) in
  fire_all (mkState (props g) (loadedItems g) (loadedCount g) (isLoading g)
                    now' waiting)
           ready.

(** *** What the grid renders *)

Record ItemProps := mkItemProps {
  item_key : string;
  item_project : Project;
  item_index : Z;
  item_isLoaded : bool;
}.

Definition render_items (g : State) : list ItemProps :=
  imap (λ i project,
          {| item_key := slug project; item_project := project;
             item_index := Z.of_nat i;
             item_isLoaded := bool_decide (Z.of_nat i ∈ loadedItems g) |})
       (projects (props g)).

(** Indices of the [VirtualPlaceholder] blocks below the grid. *)
Definition render_placeholders (g : State) : list Z :=
  if isLoading g && enableVirtualization (props g)
  then Js.Array_from_length (batchSize (props g))
  else [].

(** *** Events in the life of a mounted grid *)

Inductive Event :=
| Render (p' : Props)
| ItemVisible (index : Z)
| Elapse (dt : nat).

Definition step (g : State) (e : Event) : State :=
  match e with
  | Render p' => rerender p' g
  | ItemVisible index => handleItemVisible index g
  | Elapse dt => elapse dt g
  end.

Definition run (g : State) (es : list Event) : State := foldl step g es.

(** [handleItemVisible] is only handed to the wrappers as [onVisible], and a
    wrapper calls it with its own [index] prop: the indices that can arrive
    are those of the wrappers of the current render. *)
Definition from_wrapper (g : State) (index : Z) : Prop :=
  index ∈ item_index <$> render_items g.

(** An event that can reach a grid whose list has, and keeps, length [L]. *)
Definition event_ok (L : Z) (g : State) (e : Event) : Prop :=
  match e with
  | Render p' => projects_length p' = L
  | ItemVisible index => from_wrapper g index
  | Elapse _ => True
  end.

Fixpoint trace_ok (L : Z) (g : State) (es : list Event) : Prop :=
  match es with
  | [] => True
  | e :: es' => event_ok L g e ∧ trace_ok L (step g e) es'
  end.

(** Every index the grid holds, or can still receive from a pending timer,
    stays below [L]. *)
Definition bounded (L : Z) (g : State) : Prop :=
  (∀ x, x ∈ loadedItems g → 0 ≤ x < L)
  ∧ Forall (λ t, cb_length t = L) (timers g)
  ∧ projects_length (props g) = L.

(** The event makes the initial-load effect run again. *)
Definition reinitializes (g : State) (e : Event) : Prop :=
  match e with
  | Render p' => deps_changed p' g
  | ItemVisible _ | Elapse _ => False
  end.

(** The event leaves batch prefetch switched off. *)
Definition keeps_prefetch_off (e : Event) : Prop :=
  match e with
  | Render p' => enableVirtualization p' = false
  | ItemVisible _ | Elapse _ => True
  end.

(** Order of pending timers by due time. *)
Definition by_due (t1 t2 : Timeout) : Prop := due t1 ≤ due t2.

(** The count never says more than the set holds. *)
Definition count_sound (g : State) : Prop :=
  0 ≤ loadedCount g ≤ Js.Set_size (loadedItems g).

(** Prefetch is off, nothing is pending, and the count is exact. *)
Definition plain (g : State) : Prop :=
  enableVirtualization (props g) = false
  ∧ isLoading g = false
  ∧ timers g = []
  ∧ loadedCount g = Js.Set_size (loadedItems g).

(** A set flag has a timer behind it, pending timers are due within the
    next 100 units, and they are listed in order of due time. *)
Definition timers_sound (g : State) : Prop :=
  (isLoading g = true → timers g ≠ [])
  ∧ Forall (λ t, now g < due t ≤ now g + 100) (timers g)
  ∧ StronglySorted by_due (timers g).

End Grid.

(** ** The per-item wrapper, [LazyProjectItem] *)

Module Item.

(** The element the wrapper puts inside its [div].  [ProjectCard] is the
    component loaded with [next/dynamic]; what that component paints while
    its chunk loads is its own business and is not modelled here. *)
Inductive Element :=
| ProjectCard (project : Project)
| ProjectCardSkeleton.

(** [handleIntersection(isIntersecting)] of a render whose state cell holds
    [hasBeenVisible].  The result is the new value of the cell and the
    arguments of the calls made to [onVisible], in order. *)
Definition handleIntersection (index : Z) (isIntersecting hasBeenVisible : bool)
  : bool * list Z :=
  if isIntersecting && negb hasBeenVisible then (true, [index])
  else (hasBeenVisible, []).

(** The notifications of the observer over the wrapper's lifetime, each one
    handled by the callback of the latest committed render. *)
Fixpoint observe (index : Z) (notifications : list bool) (hasBeenVisible : bool)
  : bool * list Z :=
  match notifications with
  | [] => (hasBeenVisible, [])
  | isIntersecting :: rest =>
      let '(flag, calls) := handleIntersection index isIntersecting hasBeenVisible in
      let '(flag', calls') := observe index rest flag in
      (flag', calls ++ calls')
  end.

Definition render (project : Project) (isLoaded hasBeenVisible : bool) : Element :=
  if isLoaded || hasBeenVisible then ProjectCard project else ProjectCardSkeleton.

(** [animationDelay] in milliseconds. *)
Definition animationDelay (index : Z) : Z := index * 50.

End Item.

(** ** The hook [useIntersectionObserver] *)

Module Observer.

(** DOM elements and observers are told apart by a number. *)
Definition Element := nat.

(** The [options] argument: a field the caller left out is [None]. *)
Record Options := mkOptions {
  opt_root : option (option Element);
  opt_rootMargin : option string;
  opt_threshold : option Q;
}.

(** The default value of the parameter, [{}]. *)
Definition no_options : Options := mkOptions None None None.

(** The object handed to [new IntersectionObserver]. *)
Record Init := mkInit {
  root : option Element;
  rootMargin : string;
  threshold : Q;
}.

(** [{ root: null, rootMargin: "100px", threshold: 0.1, ...options }]:
    the spread comes last, so a field of [options] replaces the default. *)
Definition init_of (options : Options) : Init :=
  {| root := default None (opt_root options);
     rootMargin := default "100px"%string (opt_rootMargin options);
     threshold := default (1 # 10)%Q (opt_threshold options) |}.

(** One instance of the hook.  [observations] are the (observer, target)
    pairs the browser currently holds for observers made by this instance;
    [cleanup] is the closure returned by the last run of the effect, with
    the [observer] and [element] it captured. *)
Record Hook := mkHook {
  current : option Element;
  created : list Init;
  observations : list (nat * Element);
  cleanup : option (nat * option Element);
}.

(** [useRef(null)], before the first commit. *)
Definition initial : Hook := mkHook None [] [] None.

(** [observer.unobserve(element)] *)
Definition unobserve (observer : nat) (element : Element)
    (obs : list (nat * Element)) : list (nat * Element) :=
  filter (λ o, o ≠ (observer, element)) obs.

(** Body of the effect. *)
Definition effect (options : Options) (h : Hook) : Hook :=
  let observer := length (created h) in
  let element := current h in
  mkHook (current h)
         (created h ++ [init_of options])
         (match element with
          | Some el => observations h ++ [(observer, el)]
          | None => observations h
          end)
         (Some (observer, element)).

(** The function the effect returned, if any, is called and dropped. *)
Definition run_cleanup (h : Hook) : Hook :=
  match cleanup h with
  | Some (observer, Some el) =>
      mkHook (current h) (created h) (unobserve observer el (observations h)) None
  | Some (_, None) | None =>
      mkHook (current h) (created h) (observations h) None
  end.

(** A commit of the component that uses the hook: React attaches the ref,
    then, on the first commit or when [callback] or [options] is a new
    value, runs the previous cleanup and the effect. *)
Definition commit (element : option Element) (options : Options)
    (deps_changed : bool) (h : Hook) : Hook :=
  let h' := mkHook element (created h) (observations h) (cleanup h) in
  match cleanup h with
  | None => effect options h'
  | Some _ => if deps_changed then effect options (run_cleanup h') else h'
  end.

(** Unmounting: the ref is detached first, the cleanup runs afterwards. *)
Definition unmount (h : Hook) : Hook :=
  run_cleanup (mkHook None (created h) (observations h) (cleanup h)).

(** The commits of a mounted component, oldest first. *)
Definition lifetime (commits : list (option Element * Options * bool)) : Hook :=
  foldl (λ h c, commit c.1.1 c.1.2 c.2 h) initial commits.

(** What the registrations must look like given the pending cleanup. *)
Definition tidy (h : Hook) : Prop :=
  match cleanup h with
  | Some (observer, Some el) =>
      observations h = [(observer, el)] ∧ S observer = length (created h)
  | Some (_, None) | None => observations h = []
  end.

(** [LazyProjectItem] calls the hook with one argument, so [options] is a
    new [{}] in every render and the dependency array differs every time:
    each of its [n] renders, with its [div] attached, is such a commit. *)
Definition item_lifetime (el : Element) (n : nat) : Hook :=
  lifetime (replicate n (Some el, no_options, true)).

End Observer.

(** ** Wrapper and grid together *)

Module App.

(** The grid passes [handleItemVisible] as [onVisible], so the calls a
    wrapper makes reach the grid one after the other. *)
Definition deliver (calls : list Z) (g : Grid.State) : Grid.State :=
  foldl (λ acc index, Grid.handleItemVisible index acc) g calls.

(** A wrapper with prop [index] receives [notifications]. *)
Definition notify (index : Z) (notifications : list bool) (hasBeenVisible : bool)
    (g : Grid.State) : bool * Grid.State :=
  let '(flag, calls) := Item.observe index notifications hasBeenVisible in
  (flag, deliver calls g).

(** What the wrapper at [index] shows, given its flag and the grid. *)
Definition shown (project : Project) (index : Z) (hasBeenVisible : bool)
    (g : Grid.State) : Item.Element :=
  Item.render project (bool_decide (index ∈ Grid.loadedItems g)) hasBeenVisible.

End App.

(** ** The page, [ProjectsPage] *)

Module Page.

(** Values a rejected [fetchProjects()] can hand to the [catch] clause:
    an instance of [Error] with its [message], or anything else. *)
Inductive JsValue :=
| JsUndefined
| JsNull
| JsBoolean (b : bool)
| JsNumber (n : Z)
| JsString (s : string)
| JsObject (fields : list (string * string)).

Inductive Thrown :=
| ErrorInstance (message : string)
| NotAnError (v : JsValue).

Inductive FetchResult :=
| Fulfilled (ps : list Project)
| Rejected (err : Thrown).

(** Content of one of the two project sections. *)
Inductive SectionBody :=
| NoProjectsFound (text : string)
| SuspendedGrid (grid : Grid.Props).

Inductive View :=
| ErrorPanel (label error : string)
| ProjectsView (uiSection systemSection : SectionBody).

(** Truthiness of a [string | null]. *)
Definition truthy (error : option string) : bool :=
  match error with
  | None => false
  | Some s => negb (String.eqb s "")
  end.

(** The [try]/[catch] around the fetch: the final values of the two
    [let] variables [projects] and [error]. *)
Definition load (r : FetchResult) : list Project * option string :=
  match r with
  | Fulfilled ps => (ps, None)
  | Rejected (ErrorInstance message) => ([], Some message)
  | Rejected (NotAnError _) => ([], Some "An unknown error occurred"%string)
  end.

Definition of_type (t : string) (ps : list Project) : list Project :=
  List.filter (λ project, String.eqb (type project) t) ps.

Definition section (empty_text : string) (ps : list Project) : SectionBody :=
  if decide (length ps = 0%nat) then NoProjectsFound empty_text
  else SuspendedGrid (Grid.with_defaults ps).

Definition ProjectsPage (r : FetchResult) : View :=
  let '(projects, error) := load r in
  if truthy error then
    ErrorPanel "Error loading projects: " (default ""%string error)
  else
    let uiProjects := of_type "ui" projects in
    let systemProjects := of_type "system" projects in
    ProjectsView (section "No UI projects found." uiProjects)
                 (section "No system projects found." systemProjects).

(** The grids a view mounts, in document order. *)
Definition section_grids (b : SectionBody) : list Grid.Props :=
  match b with
  | NoProjectsFound _ => []
  | SuspendedGrid grid => [grid]
  end.

Definition mounted_grids (v : View) : list Grid.Props :=
  match v with
  | ErrorPanel _ _ => []
  | ProjectsView uiSection systemSection =>
      section_grids uiSection ++ section_grids systemSection
  end.

End Page.

(** ** Sample data used to exercise the statements *)

Definition sample (k : nat) : Project :=
  mkProject (String (Ascii.ascii_of_nat (97 + k)) EmptyString)
            (if Nat.even k then "ui" else "system").

Definition samples (n : nat) : list Project := sample <$> seq 0 n.

(** Ten projects, [initialLoad = 3], [batchSize = 2], prefetch on. *)
Definition grid10 : Grid.Props := Grid.mkProps (samples 10) 3 2 true.

(** The same grid with prefetch off. *)
Definition grid10_plain : Grid.Props := Grid.mkProps (samples 10) 3 2 false.


(** A project whose type is neither of the two the page asks for. *)
Definition other_project : Project := mkProject "x" "mobile".

(** The list loses its last project. *)
Definition grid9 : Grid.Props := Grid.mkProps (samples 9) 3 2 true.

(** The ten projects in reverse order. *)
Definition grid10_reversed : Grid.Props :=
  Grid.mkProps (reverse (samples 10)) 3 2 true.

(** No project at all. *)
Definition grid0 : Grid.Props := Grid.mkProps [] 3 2 true.

(** The ten-project grid after item 5 became visible and its batch timer
    has fired. *)
Definition after_batch : Grid.State :=
  Grid.run (Grid.mount grid10) [Grid.ItemVisible 5; Grid.Elapse 100].

(** * Properties *)

(** ** Built-ins *)

Module JsFacts.
Import Js.

Lemma elem_of_Array_from_length (n x : Z) :
  x ∈ Array_from_length n ↔ 0 ≤ x < n.
Proof.
  unfold Array_from_length. rewrite list_elem_of_fmap. split.
  - intros (k & -> & Hk). apply elem_of_seq in Hk. lia.
  - intros Hx. exists (Z.to_nat x). split; [lia|].
    apply elem_of_seq. lia.
Qed.

Lemma NoDup_Array_from_length (n : Z) : NoDup (Array_from_length n).
Proof.
  unfold Array_from_length. apply NoDup_fmap_2.
  - intros a b; lia.
  - apply NoDup_seq.
Qed.

Lemma length_Array_from_length (n : Z) :
  Z.of_nat (length (Array_from_length n)) = Z.max 0 n.
Proof. unfold Array_from_length. rewrite length_fmap, length_seq. lia. Qed.

Lemma elem_of_prefix_set (n x : Z) :
  x ∈ Set_of (Array_from_length n) ↔ 0 ≤ x < n.
Proof.
  unfold Set_of. rewrite elem_of_list_to_set. apply elem_of_Array_from_length.
Qed.

Lemma size_prefix_set (n : Z) :
  Set_size (Set_of (Array_from_length n)) = Z.max 0 n.
Proof.
  unfold Set_size, Set_of.
  rewrite size_list_to_set by apply NoDup_Array_from_length.
  apply length_Array_from_length.
Qed.

(** The loop that adds its counter to a set: what it adds. *)
Lemma elem_of_for_upto_add (fuel : nat) (i hi x : Z) (s : gset Z) :
  x ∈ for_upto fuel i hi (λ k acc, {[k]} ∪ acc) s
  ↔ x ∈ s ∨ (i ≤ x ≤ hi ∧ x < i + Z.of_nat fuel).
Proof.
  revert i s. induction fuel as [|fuel IH]; intros i s; simpl.
  - split; [auto | intros [?|?]; [done | lia]].
  - destruct (Z.leb_spec i hi) as [Hle|Hgt].
    + rewrite IH. rewrite elem_of_union, elem_of_singleton.
      split; intros H; destruct_or?; destruct_and?; auto; try (right; lia).
      destruct (decide (x = i)); [auto | right; lia].
    + split; [auto | intros [?|?]; [done | lia]].
Qed.

(** [trip_count] is enough fuel: more of it changes nothing, so the loop
    has left through its exit test. *)
Lemma for_upto_fuel_enough {A} (fuel : nat) (i hi : Z) (body : Z → A → A) (acc : A) :
  (trip_count i hi ≤ fuel)%nat →
  for_upto fuel i hi body acc = for_upto (trip_count i hi) i hi body acc.
Proof.
  unfold trip_count. revert i acc.
  induction fuel as [|fuel IH]; intros i acc Hf.
  - replace (Z.to_nat (hi + 1 - i)) with O by lia. done.
  - simpl. destruct (Z.leb_spec i hi) as [Hle|Hgt].
    + replace (Z.to_nat (hi + 1 - i)) with (S (Z.to_nat (hi + 1 - (i + 1)))) by lia.
      simpl. destruct (Z.leb_spec i hi); [|lia].
      apply IH. lia.
    + replace (Z.to_nat (hi + 1 - i)) with O by lia. done.
Qed.

End JsFacts.

(** ** The grid controller *)

Module GridFacts.
Import Grid.

Lemma elem_of_batchLoad (t : Timeout) (s : gset Z) (x : Z) :
  x ∈ batchLoad t s
  ↔ x ∈ s ∨ Z.max 0 (cb_index t - cb_batchSize t) ≤ x
             ≤ Z.min (cb_length t - 1) (cb_index t + cb_batchSize t).
Proof.
  unfold batchLoad. rewrite JsFacts.elem_of_for_upto_add.
  unfold Js.trip_count. split; intros [?|?]; auto; right; lia.
Qed.

Lemma batchLoad_grows (t : Timeout) (s : gset Z) : s ⊆ batchLoad t s.
Proof. intros x Hx. apply elem_of_batchLoad. auto. Qed.

(** *** Initialization *)

Lemma elem_of_initialize (g : State) (x : Z) :
  x ∈ loadedItems (initialize g)
  ↔ 0 ≤ x < Z.min (initialLoad (props g)) (projects_length (props g)).
Proof. unfold initialize. simpl. apply JsFacts.elem_of_prefix_set. Qed.

Lemma loadedCount_initialize (g : State) :
  loadedCount (initialize g)
  = Z.max 0 (Z.min (initialLoad (props g)) (projects_length (props g))).
Proof. unfold initialize. simpl. apply JsFacts.size_prefix_set. Qed.

Lemma count_is_size_initialize (g : State) :
  loadedCount (initialize g) = Js.Set_size (loadedItems (initialize g)).
Proof. reflexivity. Qed.

Lemma rerender_changed (p' : Props) (g : State) :
  deps_changed p' g → rerender p' g = initialize (set_props p' g).
Proof. intros H. unfold rerender. rewrite decide_True; auto. Qed.

Lemma rerender_same (p' : Props) (g : State) :
  ¬ deps_changed p' g → rerender p' g = set_props p' g.
Proof. intros H. unfold rerender. rewrite decide_False; auto. Qed.

(** *** [handleItemVisible] *)

Lemma handleItemVisible_loaded (index : Z) (g : State) :
  index ∈ loadedItems g → handleItemVisible index g = g.
Proof. intros H. unfold handleItemVisible. by rewrite decide_True. Qed.

Lemma loadedItems_handleItemVisible (index : Z) (g : State) :
  loadedItems (handleItemVisible index g) = {[index]} ∪ loadedItems g.
Proof.
  unfold handleItemVisible. destruct (decide (index ∈ loadedItems g)) as [Hin|Hout].
  - symmetry. apply subseteq_union_1_L. by apply singleton_subseteq_l.
  - by destruct (enableVirtualization (props g)).
Qed.

Lemma props_handleItemVisible (index : Z) (g : State) :
  props (handleItemVisible index g) = props g.
Proof.
  unfold handleItemVisible. destruct (decide _); [done|].
  by destruct (enableVirtualization (props g)).
Qed.

Lemma count_is_size_after_add (index : Z) (g : State) :
  index ∉ loadedItems g →
  loadedCount (handleItemVisible index g)
  = Js.Set_size (loadedItems (handleItemVisible index g)).
Proof.
  intros H. unfold handleItemVisible. rewrite decide_False by done.
  by destruct (enableVirtualization (props g)).
Qed.

(** *** Timers *)

Lemma fire_all_snoc (g : State) (ts : list Timeout) (t : Timeout) :
  fire_all g (ts ++ [t]) = on_timeout t (fire_all g ts).
Proof. unfold fire_all. by rewrite foldl_app. Qed.

Lemma fire_all_grows (ts : list Timeout) (g : State) :
  loadedItems g ⊆ loadedItems (fire_all g ts).
Proof.
  revert g. induction ts as [|t ts IH]; intros g; simpl; [done|].
  etrans; [|apply IH]. simpl. apply batchLoad_grows.
Qed.

Lemma props_fire_all (ts : list Timeout) (g : State) :
  props (fire_all g ts) = props g.
Proof. revert g. induction ts as [|t ts IH]; intros g; simpl; [done|]. by rewrite IH. Qed.

Lemma loadedCount_fire_all (ts : list Timeout) (g : State) :
  loadedCount (fire_all g ts) = loadedCount g.
Proof. revert g. induction ts as [|t ts IH]; intros g; simpl; [done|]. by rewrite IH. Qed.

Lemma timers_fire_all (ts : list Timeout) (g : State) :
  timers (fire_all g ts) = timers g.
Proof. revert g. induction ts as [|t ts IH]; intros g; simpl; [done|]. by rewrite IH. Qed.

Lemma elapse_unfold (dt : nat) (g : State) :
  elapse dt g
  = fire_all (mkState (props g) (loadedItems g) (loadedCount g) (isLoading g)
                      (now g + Z.of_nat dt)
                      (filter (λ t, ¬ due t ≤ now g + Z.of_nat dt) (timers g)))
             (filter (λ t, due t ≤ now g + Z.of_nat dt) (timers g)).
Proof. reflexivity. Qed.

Lemma elapse_grows (dt : nat) (g : State) :
  loadedItems g ⊆ loadedItems (elapse dt g).
Proof. rewrite elapse_unfold. etrans; [|apply fire_all_grows]. done. Qed.

Lemma props_elapse (dt : nat) (g : State) : props (elapse dt g) = props g.
Proof. rewrite elapse_unfold. by rewrite props_fire_all. Qed.

Lemma loadedCount_elapse (dt : nat) (g : State) :
  loadedCount (elapse dt g) = loadedCount g.
Proof.
  rewrite elapse_unfold. by rewrite loadedCount_fire_all.
Qed.

Lemma timers_elapse (dt : nat) (g : State) :
  timers (elapse dt g) = filter (λ t, ¬ due t ≤ now g + Z.of_nat dt) (timers g).
Proof.
  rewrite elapse_unfold. by rewrite timers_fire_all.
Qed.

(** *** Indices stay inside the list *)

Lemma from_wrapper_range (g : State) (index : Z) :
  from_wrapper g index ↔ 0 ≤ index < projects_length (props g).
Proof.
  unfold from_wrapper, render_items, projects_length.
  rewrite list_elem_of_fmap. split.
  - intros (it & -> & Hit). apply elem_of_lookup_imap in Hit.
    destruct Hit as (i & project & -> & Hl). simpl.
    apply lookup_lt_Some in Hl. lia.
  - intros Hr. destruct (lookup_lt_is_Some_2 (projects (props g)) (Z.to_nat index))
      as [project Hl]; [lia|].
    eexists. split; [|apply elem_of_lookup_imap; eauto]. simpl. lia.
Qed.

Lemma Forall_kept {A} (P Q : A → Prop) `{∀ x, Decision (Q x)} (l : list A) :
  Forall P l → Forall P (filter Q l).
Proof.
  induction 1 as [|x l Hx Hl IH]; [constructor|].
  rewrite filter_cons. destruct (decide (Q x)); [by constructor | done].
Qed.

Lemma bounded_mount (p : Props) : bounded (projects_length p) (mount p).
Proof.
  split_and!; [|constructor|done].
  intros x Hx. apply elem_of_initialize in Hx. simpl in Hx. lia.
Qed.

Lemma bounded_fire_all (L : Z) (ts : list Timeout) (g : State) :
  Forall (λ t, cb_length t = L) ts → bounded L g → bounded L (fire_all g ts).
Proof.
  revert g. induction ts as [|t ts IH]; intros g Hts Hg; simpl; [done|].
  inversion Hts as [|?? Ht Hts']; subst. apply IH; [done|].
  destruct Hg as (Hin & Htm & Hlen). split_and!; [|done..].
  simpl. intros x Hx. apply elem_of_batchLoad in Hx.
  destruct Hx as [Hx|Hx]; [auto | lia].
Qed.

Lemma bounded_step (L : Z) (g : State) (e : Event) :
  event_ok L g e → bounded L g → bounded L (step g e).
Proof.
  intros He (Hin & Htm & Hlen). destruct e as [p'|index|dt]; simpl in *.
  - unfold rerender. destruct (decide _); [|by split_and!].
    split_and!; [|done..].
    intros x Hx. apply elem_of_initialize in Hx. simpl in Hx. lia.
  - apply from_wrapper_range in He.
    assert (Hnew : ∀ x, x ∈ {[index]} ∪ loadedItems g → 0 ≤ x < L).
    { intros x [Hx%elem_of_singleton|Hx]%elem_of_union; [lia | auto]. }
    unfold handleItemVisible. destruct (decide _); [by split_and!|].
    destruct (enableVirtualization (props g)); split_and!; simpl; try done.
    apply Forall_app. split; [done|]. by repeat constructor.
  - rewrite elapse_unfold. apply bounded_fire_all.
    + by apply Forall_kept.
    + split_and!; [done| |done]. simpl. by apply Forall_kept.
Qed.

Lemma bounded_run (L : Z) (es : list Event) (g : State) :
  trace_ok L g es → bounded L g → bounded L (run g es).
Proof.
  revert g. induction es as [|e es IH]; intros g Hok Hg; simpl in *; [done|].
  destruct Hok as [He Hes]. apply IH; [done|]. by apply bounded_step.
Qed.

(** *** Growth *)

Lemma step_grows (g : State) (e : Event) :
  ¬ reinitializes g e → loadedItems g ⊆ loadedItems (step g e).
Proof.
  intros Hre. destruct e as [p'|index|dt]; simpl in *.
  - by rewrite rerender_same.
  - rewrite loadedItems_handleItemVisible. apply union_subseteq_r.
  - apply elapse_grows.
Qed.

Lemma run_grows (es : list Event) (g : State) :
  (∀ g' e, e ∈ es → ¬ reinitializes g' e) →
  loadedItems g ⊆ loadedItems (run g es).
Proof.
  revert g. induction es as [|e es IH]; intros g Hes; simpl; [done|].
  etrans; [apply (step_grows g e)|apply IH].
  - apply Hes. by left.
  - intros g' e' He'. apply Hes. by right.
Qed.

(** *** A registered timer fires once its delay has passed *)

Lemma fire_all_window (ts : list Timeout) (t : Timeout) (g : State) (x : Z) :
  t ∈ ts →
  Z.max 0 (cb_index t - cb_batchSize t) ≤ x
  ≤ Z.min (cb_length t - 1) (cb_index t + cb_batchSize t) →
  x ∈ loadedItems (fire_all g ts).
Proof.
  intros Ht Hx. revert g. induction ts as [|t' ts IH]; intros g.
  - by apply elem_of_nil in Ht.
  - apply elem_of_cons in Ht. destruct Ht as [<-|Ht]; simpl.
    + apply fire_all_grows. simpl. apply elem_of_batchLoad. by right.
    + by apply IH.
Qed.

Lemma elapse_window (dt : nat) (t : Timeout) (g : State) (x : Z) :
  t ∈ timers g →
  due t ≤ now g + Z.of_nat dt →
  Z.max 0 (cb_index t - cb_batchSize t) ≤ x
  ≤ Z.min (cb_length t - 1) (cb_index t + cb_batchSize t) →
  x ∈ loadedItems (elapse dt g).
Proof.
  intros Ht Hdue Hx. rewrite elapse_unfold.
  apply (fire_all_window _ t); [|done].
  apply list_elem_of_filter. by split.
Qed.

(** A timer stays registered until the clock reaches its due time. *)
Lemma elapse_keeps_waiting (dt : nat) (t : Timeout) (g : State) :
  t ∈ timers g → now g + Z.of_nat dt < due t → t ∈ timers (elapse dt g).
Proof.
  intros Ht Hdue. rewrite timers_elapse.
  apply list_elem_of_filter. split; [lia | done].
Qed.

Lemma handleItemVisible_registers (index : Z) (g : State) :
  enableVirtualization (props g) = true →
  index ∉ loadedItems g →
  timers (handleItemVisible index g)
  = timers g ++ [mkTimeout (now g + 100) index (batchSize (props g))
                           (projects_length (props g))].
Proof.
  intros Hev Hout. unfold handleItemVisible.
  rewrite decide_False by done. by rewrite Hev.
Qed.

Lemma now_handleItemVisible (index : Z) (g : State) :
  now (handleItemVisible index g) = now g.
Proof.
  unfold handleItemVisible. destruct (decide _); [done|].
  by destruct (enableVirtualization (props g)).
Qed.



End GridFacts.

(** ** Claims about the grid controller *)

Section GridClaims.
Import Grid GridFacts.

(** C1.  For a list of length [L] and an [initialLoad] of [N] (a count, so
    not negative), the effect that runs on mount, and again whenever [L] or
    [N] differs from the previous render, leaves the loaded set equal to
    [{0, ..., min(N, L) - 1}] and the count equal to [min(N, L)].  The
    result does not depend on the state before, so everything added
    earlier, batch expansions included, is gone. *)
Theorem C1_initialize_loads_first_indices (p : Props) :
  0 ≤ initialLoad p →
  let n := Z.min (initialLoad p) (projects_length p) in
  ((∀ x, x ∈ loadedItems (mount p) ↔ 0 ≤ x < n)
   ∧ loadedCount (mount p) = n)
  ∧ (∀ g, deps_changed p g →
       (∀ x, x ∈ loadedItems (rerender p g) ↔ 0 ≤ x < n)
       ∧ loadedCount (rerender p g) = n).
Proof.
  intros HN n. split.
  - split.
    + intros x. unfold mount. rewrite elem_of_initialize. done.
    + unfold mount. rewrite loadedCount_initialize. simpl.
      unfold projects_length in *. lia.
  - intros g Hch. rewrite rerender_changed by done. split.
    + intros x. rewrite elem_of_initialize. done.
    + rewrite loadedCount_initialize. simpl.
      unfold projects_length in *. lia.
Qed.

Lemma C1_witness :
  0 ≤ initialLoad grid9
  ∧ deps_changed grid9 after_batch
  ∧ 5 ∈ loadedItems after_batch
  ∧ ¬ 5 ∈ loadedItems (rerender grid9 after_batch)
  ∧ loadedCount (rerender grid9 after_batch) = 3.
Proof.
  assert (H0 : 0 ≤ initialLoad grid9) by (simpl; lia).
  assert (Hd : deps_changed grid9 after_batch).
  { left. vm_compute. discriminate. }
  destruct (C1_initialize_loads_first_indices grid9 H0) as [_ Hre].
  destruct (Hre after_batch Hd) as [Hset Hcount].
  split_and!; [done | done | | | exact Hcount].
  - apply (bool_decide_unpack _). vm_compute. exact I.
  - intros H5. apply Hset in H5. vm_compute in H5. destruct H5 as [_ H5]. discriminate.
Defined.




(** C3.  [handleItemVisible] is idempotent: calling it a second time with
    the same index leaves the whole state, and so the loaded set, as the
    first call left it.  When the index is already loaded the call changes
    nothing: not the set, not the count, not the flag, and no timer is
    registered. *)
Theorem C3_handleItemVisible_idempotent (index : Z) (g : State) :
  handleItemVisible index (handleItemVisible index g) = handleItemVisible index g
  ∧ (index ∈ loadedItems g → handleItemVisible index g = g).
Proof.
  split.
  - apply handleItemVisible_loaded. rewrite loadedItems_handleItemVisible.
    apply elem_of_union_l. by apply elem_of_singleton.
  - apply handleItemVisible_loaded.
Qed.

Lemma C3_witness :
  1 ∈ loadedItems (mount grid10)
  ∧ handleItemVisible 1 (mount grid10) = mount grid10.
Proof.
  assert (H1 : 1 ∈ loadedItems (mount grid10)).
  { apply (bool_decide_unpack _). vm_compute. exact I. }
  split; [exact H1|].
  exact (proj2 (C3_handleItemVisible_idempotent 1 (mount grid10)) H1).
Defined.

(** C4.  The count follows the set on initialization and on the direct add
    of [handleItemVisible], but the timer callback expands the set without
    touching the count: after item 5 of the ten-project grid has triggered
    a batch, the set holds eight indices and the count still says four. *)
Theorem C4_count_stale_after_batch :
  loadedCount (mount grid10) = Js.Set_size (loadedItems (mount grid10))
  ∧ (loadedCount (handleItemVisible 5 (mount grid10))
     = Js.Set_size (loadedItems (handleItemVisible 5 (mount grid10))))
  ∧ Js.Set_size (loadedItems (elapse 100 (handleItemVisible 5 (mount grid10)))) = 8
  ∧ loadedCount (elapse 100 (handleItemVisible 5 (mount grid10))) = 4.
Proof. vm_compute. done. Qed.

(** The count is recomputed by the next direct add, and only then. *)
Lemma count_repaired_by_next_add :
  loadedCount (handleItemVisible 6 after_batch) = 4
  ∧ loadedCount (handleItemVisible 9 after_batch) = 9
  ∧ Js.Set_size (loadedItems (handleItemVisible 9 after_batch)) = 9.
Proof. vm_compute. done. Qed.

(** C5, as claimed, fails: a render with a shorter list runs the
    initialization again, which drops every index outside the first
    [min(N, L)], here 5, and the set shrinks from eight members to three. *)
Lemma C5_counterexample :
  5 ∈ loadedItems after_batch
  ∧ ¬ 5 ∈ loadedItems (step after_batch (Render grid9))
  ∧ size (loadedItems after_batch) = 8%nat
  ∧ size (loadedItems (step after_batch (Render grid9))) = 3%nat.
Proof.
  split_and!.
  - apply (bool_decide_unpack _). vm_compute. exact I.
  - intros H. apply (bool_decide_pack _) in H. vm_compute in H. exact H.
  - vm_compute. reflexivity.
  - vm_compute. reflexivity.
Qed.

(** C5, amended.  Every event that does not run the initialization again
    (a notification from a wrapper, the passing of time with the timers it
    fires, a render that leaves list length and [initialLoad] as they
    were) keeps every loaded index, so the set does not get smaller. *)
Theorem C5_grows_between_initializations (g : State) (e : Event) :
  ¬ reinitializes g e →
  loadedItems g ⊆ loadedItems (step g e)
  ∧ (size (loadedItems g) ≤ size (loadedItems (step g e)))%nat.
Proof.
  intros Hre. pose proof (step_grows g e Hre) as Hsub.
  split; [exact Hsub | by apply subseteq_size].
Qed.

Lemma C5_witness :
  ¬ reinitializes (mount grid10) (ItemVisible 5)
  ∧ loadedItems (mount grid10) ⊆ loadedItems (step (mount grid10) (ItemVisible 5)).
Proof.
  assert (H : ¬ reinitializes (mount grid10) (ItemVisible 5)) by (simpl; tauto).
  split; [exact H|].
  exact (proj1 (C5_grows_between_initializations (mount grid10) (ItemVisible 5) H)).
Defined.

(** C6.  Ten projects, [initialLoad = 3], [batchSize = 2], prefetch on.  The
    mounted grid has loaded [{0, 1, 2}].  When item 5 becomes visible the
    loading flag is set at once and two placeholder blocks are rendered;
    99 units later nothing more has happened; after 100 units the set is
    [{0, ..., 7}], the flag is cleared and the placeholders are gone. *)
Theorem C6_prefetch_scenario :
  let g0 := mount grid10 in
  let g1 := handleItemVisible 5 g0 in
  let g2 := elapse 100 g1 in
  loadedItems g0 = {[0; 1; 2]}
  ∧ isLoading g1 = true
  ∧ length (render_placeholders g1) = 2%nat
  ∧ loadedItems (elapse 99 g1) = {[0; 1; 2; 5]}
  ∧ isLoading (elapse 99 g1) = true
  ∧ loadedItems g2 = {[0; 1; 2; 3; 4; 5; 6; 7]}
  ∧ isLoading g2 = false
  ∧ render_placeholders g2 = [].
Proof. vm_compute. done. Qed.

(** With prefetch off only the visible item is added and no placeholder is
    ever rendered. *)
Lemma plain_scenario :
  let g1 := handleItemVisible 5 (mount grid10_plain) in
  loadedItems g1 = {[0; 1; 2; 5]}
  ∧ isLoading g1 = false
  ∧ render_placeholders g1 = []
  ∧ timers g1 = []
  ∧ loadedItems (elapse 100 g1) = {[0; 1; 2; 5]}.
Proof. vm_compute. done. Qed.

End GridClaims.

(** ** Claims about the per-item wrapper *)

Module ItemFacts.
Import Item.

(** Once the flag is set, no notification reaches [onVisible]. *)
Lemma observe_after_visible (index : Z) (notifications : list bool) :
  observe index notifications true = (true, []).
Proof.
  induction notifications as [|b rest IH]; simpl; [done|].
  unfold handleIntersection. rewrite andb_false_r. by rewrite IH.
Qed.

(** Until the first intersecting notification nothing happens. *)
Lemma observe_while_hidden (index : Z) (k : nat) :
  observe index (repeat false k) false = (false, []).
Proof. induction k as [|k IH]; simpl; [done|]. by rewrite IH. Qed.

Lemma observe_from_hidden (index : Z) (notifications : list bool) :
  observe index notifications false
  = if existsb id notifications then (true, [index]) else (false, []).
Proof.
  induction notifications as [|b rest IH]; simpl; [done|].
  destruct b; simpl.
  - by rewrite observe_after_visible.
  - rewrite IH. by destruct (existsb id rest).
Qed.

End ItemFacts.

Section ItemClaims.
Import Item ItemFacts.

(** C7.  Over any sequence of visibility notifications a wrapper calls
    [onVisible] at most once, and always with its own index: the call is
    made by the first intersecting notification, nothing is called before
    it, and every notification that arrives once the flag is set is
    ignored.  The wrapper shows the real card exactly when [isLoaded] or
    the flag holds, and the skeleton otherwise. *)
Theorem C7_onVisible_at_most_once
    (project : Project) (index : Z) (notifications : list bool)
    (isLoaded hasBeenVisible : bool) :
  (observe index notifications false
   = if existsb id notifications then (true, [index]) else (false, []))
  ∧ (length (snd (observe index notifications hasBeenVisible)) ≤ 1)%nat
  ∧ (∀ hidden later : list bool,
        existsb id hidden = false →
        observe index hidden false = (false, [])
        ∧ handleIntersection index true false = (true, [index])
        ∧ observe index later true = (true, [])
        ∧ observe index (hidden ++ true :: later) false = (true, [index]))
  ∧ (render project isLoaded hasBeenVisible = ProjectCard project
     ↔ isLoaded = true ∨ hasBeenVisible = true)
  ∧ (render project isLoaded hasBeenVisible = ProjectCardSkeleton
     ↔ ¬ (isLoaded = true ∨ hasBeenVisible = true)).
Proof.
  split_and!.
  - apply observe_from_hidden.
  - destruct hasBeenVisible.
    + rewrite observe_after_visible. simpl. lia.
    + rewrite observe_from_hidden.
      destruct (existsb id notifications); simpl; lia.
  - intros hidden later Hh. split_and!.
    + rewrite observe_from_hidden. by rewrite Hh.
    + reflexivity.
    + apply observe_after_visible.
    + rewrite observe_from_hidden, existsb_app, Hh. reflexivity.
  - unfold render. destruct isLoaded, hasBeenVisible; simpl; intuition congruence.
  - unfold render. destruct isLoaded, hasBeenVisible; simpl; intuition congruence.
Qed.

Lemma C7_witness :
  existsb id [false; false] = false
  ∧ observe 4 ([false; false] ++ true :: [false; true; true]) false = (true, [4]).
Proof.
  assert (H : existsb id [false; false] = false) by reflexivity.
  split; [exact H|].
  destruct (C7_onVisible_at_most_once (sample 4) 4 [] false false)
    as (_ & _ & Hfirst & _).
  exact (proj2 (proj2 (proj2 (Hfirst [false; false] [false; true; true] H)))).
Defined.

End ItemClaims.

(** ** Claims about the page *)

Module PageFacts.
Import Page.

Lemma elem_of_of_type (t : string) (ps : list Project) (project : Project) :
  project ∈ of_type t ps ↔ project ∈ ps ∧ type project = t.
Proof.
  unfold of_type. rewrite !list_elem_of_In, filter_In.
  by rewrite String.eqb_eq.
Qed.

Lemma length_of_types (ps : list Project) :
  (∀ project, project ∈ ps → type project = "ui" ∨ type project = "system") →
  (length (of_type "ui" ps) + length (of_type "system" ps) = length ps)%nat.
Proof.
  induction ps as [|project ps IH]; intros Hty; [done|].
  assert (Hrest : (length (of_type "ui" ps) + length (of_type "system" ps)
                   = length ps)%nat).
  { apply IH. intros q Hq. apply Hty. by right. }
  unfold of_type in *. simpl.
  destruct (Hty project) as [-> | ->]; [by left| |]; simpl; lia.
Qed.

Lemma length_by_type (ps : list Project) :
  (length (of_type "ui" ps) + length (of_type "system" ps)
   + length (filter (λ project, type project ≠ "ui"%string
                                ∧ type project ≠ "system"%string) ps)
   = length ps)%nat.
Proof.
  induction ps as [|project ps IH]; [done|].
  unfold of_type in *. cbn [List.filter]. rewrite filter_cons.
  destruct (String.eqb_spec (type project) "ui") as [Hu|Hu].
  - rewrite decide_False by tauto.
    destruct (String.eqb_spec (type project) "system") as [Hs|Hs].
    { rewrite Hu in Hs. discriminate. }
    simpl. lia.
  - destruct (String.eqb_spec (type project) "system") as [Hs|Hs].
    + rewrite decide_False by tauto. simpl. lia.
    + rewrite decide_True by done. simpl. lia.
Qed.

Lemma section_cases (text : string) (ps : list Project) :
  section text ps
  = match ps with
    | [] => NoProjectsFound text
    | _ :: _ => SuspendedGrid (Grid.with_defaults ps)
    end.
Proof. by destruct ps. Qed.

(** A fulfilled fetch never sets [error]. *)
Lemma ProjectsPage_fulfilled (ps : list Project) :
  ProjectsPage (Fulfilled ps)
  = ProjectsView (section "No UI projects found." (of_type "ui" ps))
                 (section "No system projects found." (of_type "system" ps)).
Proof. reflexivity. Qed.

(** A rejection with an [Error] whose message is not empty shows that
    message. *)
Lemma ProjectsPage_error_message (message : string) :
  message ≠ ""%string →
  ProjectsPage (Rejected (ErrorInstance message))
  = ErrorPanel "Error loading projects: " message.
Proof.
  intros Hne. unfold ProjectsPage. simpl.
  destruct (String.eqb_spec message ""); [done|reflexivity].
Qed.

(** No rejection mounts a grid or shows a project. *)
Lemma rejected_mounts_no_grid (err : Thrown) :
  fst (load (Rejected err)) = [] ∧ mounted_grids (ProjectsPage (Rejected err)) = [].
Proof.
  destruct err as [message|v]; [|done].
  unfold ProjectsPage. simpl. by destruct (String.eqb message "").
Qed.

End PageFacts.

Section PageClaims.
Import Page PageFacts.

(** C8, as claimed, fails for a project whose type is neither "ui" nor
    "system": both filters leave it out, so the two groups do not cover the
    fetched list and the project is shown in no section. *)
Lemma C8_counterexample :
  other_project ∈ [sample 0; other_project; sample 1]
  ∧ ¬ other_project ∈ of_type "ui" [sample 0; other_project; sample 1]
  ∧ ¬ other_project ∈ of_type "system" [sample 0; other_project; sample 1]
  ∧ ProjectsPage (Fulfilled [sample 0; other_project; sample 1])
    = ProjectsView (SuspendedGrid (Grid.with_defaults [sample 0]))
                   (SuspendedGrid (Grid.with_defaults [sample 1])).
Proof.
  split_and!.
  - apply list_elem_of_further, list_elem_of_here.
  - rewrite elem_of_of_type. intros [_ H]. discriminate.
  - rewrite elem_of_of_type. intros [_ H]. discriminate.
  - reflexivity.
Qed.

(** C8, amended.  On a fulfilled fetch the page selects two groups by type
    tag, the "ui" projects and the "system" projects.  The groups are
    disjoint and together hold exactly the fetched projects that carry one
    of the two tags; with the projects of any other tag they account for the
    whole list.  Each of the two sections shows its static "no projects"
    text when its group is empty and otherwise mounts one grid, with the
    default configuration, inside its own suspense boundary; so the page
    mounts exactly one grid per non-empty group. *)
Theorem C8_two_groups_by_tag (ps : list Project) :
  let uiProjects := of_type "ui" ps in
  let systemProjects := of_type "system" ps in
  (∀ project, project ∈ uiProjects ∨ project ∈ systemProjects
              ↔ project ∈ ps
                ∧ (type project = "ui"%string ∨ type project = "system"%string))
  ∧ (∀ project, ¬ (project ∈ uiProjects ∧ project ∈ systemProjects))
  ∧ (length uiProjects + length systemProjects
     + length (filter (λ project, type project ≠ "ui"%string
                                  ∧ type project ≠ "system"%string) ps)
     = length ps)%nat
  ∧ ProjectsPage (Fulfilled ps)
    = ProjectsView
        match uiProjects with
        | [] => NoProjectsFound "No UI projects found."
        | _ :: _ => SuspendedGrid (Grid.with_defaults uiProjects)
        end
        match systemProjects with
        | [] => NoProjectsFound "No system projects found."
        | _ :: _ => SuspendedGrid (Grid.with_defaults systemProjects)
        end
  ∧ mounted_grids (ProjectsPage (Fulfilled ps))
    = Grid.with_defaults <$> List.filter (λ l, negb (Nat.eqb (length l) 0))
                               [uiProjects; systemProjects].
Proof.
  intros uiProjects systemProjects. split_and!.
  - intros project. subst uiProjects systemProjects.
    rewrite !elem_of_of_type. tauto.
  - intros project [Hui Hsys]. subst uiProjects systemProjects.
    apply elem_of_of_type in Hui, Hsys.
    destruct Hui as [_ Hui], Hsys as [_ Hsys]. congruence.
  - apply length_by_type.
  - rewrite ProjectsPage_fulfilled, !section_cases. reflexivity.
  - rewrite ProjectsPage_fulfilled, !section_cases.
    fold uiProjects systemProjects.
    by destruct uiProjects, systemProjects.
Qed.

(** A project with any other tag is shown in neither section. *)
Lemma other_type_not_shown (ps : list Project) (project : Project) :
  type project ≠ "ui"%string → type project ≠ "system"%string →
  ¬ project ∈ of_type "ui" ps ∧ ¬ project ∈ of_type "system" ps.
Proof. intros Hu Hs. rewrite !elem_of_of_type. tauto. Qed.

(** C9.  The claim fails for an [Error] whose message is the empty string:
    [error] is then the empty string, the test [if (error)] is false, and
    the page goes on as if the fetch had returned the empty list, with both
    "no projects" texts and no error panel. *)
Theorem C9_empty_message_skips_error_panel :
  ProjectsPage (Rejected (ErrorInstance ""))
  = ProjectsView (NoProjectsFound "No UI projects found.")
                 (NoProjectsFound "No system projects found.")
  ∧ ProjectsPage (Rejected (ErrorInstance "")) = ProjectsPage (Fulfilled []).
Proof. split; reflexivity. Qed.

(** C10.  A thrown value that is not an [Error] instance puts the fixed text
    "An unknown error occurred" in the error panel, whatever the value
    was.  And whenever the panel is shown, its text is either the message
    of the thrown [Error], unchanged, or that fixed text for a value that
    is not an [Error]. *)
Theorem C10_fallback_for_non_errors :
  (∀ v : JsValue,
      ProjectsPage (Rejected (NotAnError v))
      = ErrorPanel "Error loading projects: " "An unknown error occurred")
  ∧ (∀ (err : Thrown) (label text : string),
        ProjectsPage (Rejected err) = ErrorPanel label text →
        err = ErrorInstance text
        ∨ (text = "An unknown error occurred"%string ∧ ∃ v, err = NotAnError v)).
Proof.
  split; [reflexivity|].
  intros [message|v] label text H.
  - left. unfold ProjectsPage in H. simpl in H.
    destruct (String.eqb message ""); simpl in H; [discriminate|].
    by inversion H.
  - right. inversion H. eauto.
Qed.

Lemma C10_witness :
  ProjectsPage (Rejected (ErrorInstance "Failed to fetch projects"))
  = ErrorPanel "Error loading projects: " "Failed to fetch projects"
  ∧ (ErrorInstance "Failed to fetch projects"
     = ErrorInstance "Failed to fetch projects"
     ∨ ("Failed to fetch projects"%string = "An unknown error occurred"%string
        ∧ ∃ v, ErrorInstance "Failed to fetch projects" = NotAnError v)).
Proof.
  assert (H : ProjectsPage (Rejected (ErrorInstance "Failed to fetch projects"))
              = ErrorPanel "Error loading projects: " "Failed to fetch projects")
    by reflexivity.
  split; [exact H|].
  exact (proj2 C10_fallback_for_non_errors _ _ _ H).
Defined.

End PageClaims.

(** * Further properties of the code *)

(** ** The batch expansion *)

Module BatchFacts.
Import Grid GridFacts.

(** The window as a list of consecutive integers. *)
Lemma batchLoad_as_union (t : Timeout) (s : gset Z) :
  batchLoad t s
  = s ∪ list_to_set
          (seqZ (Z.max 0 (cb_index t - cb_batchSize t))
                (Z.min (cb_length t - 1) (cb_index t + cb_batchSize t) + 1
                 - Z.max 0 (cb_index t - cb_batchSize t))).
Proof.
  apply set_eq. intros x.
  rewrite elem_of_batchLoad, elem_of_union, elem_of_list_to_set, elem_of_seqZ.
  split; intros [?|?]; auto; right; lia.
Qed.

Lemma size_union_le (a b : gset Z) : (size (a ∪ b) ≤ size a + size b)%nat.
Proof.
  rewrite size_union_alt.
  assert (size (b ∖ a) ≤ size b)%nat
    by (apply subseteq_size; by apply subseteq_difference_l).
  lia.
Qed.

Lemma now_fire_all (ts : list Timeout) (g : State) : now (fire_all g ts) = now g.
Proof. revert g. induction ts as [|t ts IH]; intros g; simpl; [done|]. by rewrite IH. Qed.

Lemma isLoading_fire_all (ts : list Timeout) (g : State) :
  isLoading (fire_all g ts) = match ts with [] => isLoading g | _ :: _ => false end.
Proof.
  revert g. induction ts as [|t ts IH]; intros g; simpl; [done|].
  rewrite IH. by destruct ts.
Qed.

Lemma elem_of_fire_all (ts : list Timeout) (g : State) (x : Z) :
  x ∈ loadedItems (fire_all g ts)
  ↔ x ∈ loadedItems g
    ∨ ∃ t, t ∈ ts
           ∧ Z.max 0 (cb_index t - cb_batchSize t) ≤ x
             ≤ Z.min (cb_length t - 1) (cb_index t + cb_batchSize t).
Proof.
  revert g. induction ts as [|t ts IH]; intros g; simpl.
  - split; [auto|]. intros [?|(t & Ht & _)]; [done|]. by apply elem_of_nil in Ht.
  - rewrite IH. simpl. rewrite elem_of_batchLoad. split.
    + intros [[?|?]|(t' & Ht' & Hx)]; auto.
      * right. exists t. split; [by left | done].
      * right. exists t'. split; [by right | done].
    + intros [?|(t' & Ht' & Hx)]; auto.
      apply elem_of_cons in Ht'. destruct Ht' as [->|Ht']; [auto|].
      right. eauto.
Qed.

End BatchFacts.

Section BatchExtras.
Import Grid GridFacts BatchFacts.

(** X1.  The timer callback adds the indices of its clamped window and no
    other index; it clears the loading flag and leaves the count, the props,
    the clock and the other timers alone. *)
Theorem X1_timeout_adds_exactly_the_window (t : Timeout) (g : State) :
  (∀ x, x ∈ loadedItems (on_timeout t g)
        ↔ x ∈ loadedItems g
          ∨ Z.max 0 (cb_index t - cb_batchSize t) ≤ x
            ≤ Z.min (cb_length t - 1) (cb_index t + cb_batchSize t))
  ∧ isLoading (on_timeout t g) = false
  ∧ loadedCount (on_timeout t g) = loadedCount g
  ∧ props (on_timeout t g) = props g
  ∧ now (on_timeout t g) = now g
  ∧ timers (on_timeout t g) = timers g.
Proof.
  split_and!; try reflexivity.
  intros x. simpl. apply elem_of_batchLoad.
Qed.

(** X2.  With a batch size that is not negative, one batch expansion adds at
    most [2 * batchSize + 1] indices. *)
Theorem X2_batch_adds_boundedly_many (t : Timeout) (s : gset Z) :
  0 ≤ cb_batchSize t →
  Js.Set_size (batchLoad t s) ≤ Js.Set_size s + (2 * cb_batchSize t + 1).
Proof.
  intros Hb. rewrite batchLoad_as_union. unfold Js.Set_size.
  pose proof (size_union_le s
    (list_to_set
       (seqZ (Z.max 0 (cb_index t - cb_batchSize t))
             (Z.min (cb_length t - 1) (cb_index t + cb_batchSize t) + 1
              - Z.max 0 (cb_index t - cb_batchSize t))))) as Hu.
  rewrite size_list_to_set in Hu by apply NoDup_seqZ.
  rewrite length_seqZ in Hu. lia.
Qed.

Lemma X2_witness :
  0 ≤ cb_batchSize (mkTimeout 100 5 2 10)
  ∧ Js.Set_size (batchLoad (mkTimeout 100 5 2 10) {[0; 1; 2; 5]})
    ≤ Js.Set_size ({[0; 1; 2; 5]} : gset Z) + (2 * 2 + 1).
Proof.
  assert (H : 0 ≤ cb_batchSize (mkTimeout 100 5 2 10)) by (simpl; lia).
  split; [exact H|].
  exact (X2_batch_adds_boundedly_many (mkTimeout 100 5 2 10) {[0; 1; 2; 5]} H).
Defined.

(** X3.  When the window is empty the expansion changes nothing.  That is
    so for a negative batch size, for an empty list, and for an index that
    lies more than [batchSize] beyond the end of the list. *)
Theorem X3_empty_window_adds_nothing (t : Timeout) (s : gset Z) :
  cb_batchSize t < 0 ∨ cb_length t ≤ 0 ∨ cb_length t + cb_batchSize t ≤ cb_index t →
  batchLoad t s = s.
Proof.
  intros H. apply set_eq. intros x. rewrite elem_of_batchLoad.
  split; [|auto]. intros [?|?]; [done|lia].
Qed.

Lemma X3_witness :
  (cb_batchSize (mkTimeout 100 5 (-2) 10) < 0
   ∨ cb_length (mkTimeout 100 5 (-2) 10) ≤ 0
   ∨ cb_length (mkTimeout 100 5 (-2) 10) + cb_batchSize (mkTimeout 100 5 (-2) 10)
     ≤ cb_index (mkTimeout 100 5 (-2) 10))
  ∧ batchLoad (mkTimeout 100 5 (-2) 10) {[0; 1; 2; 5]} = {[0; 1; 2; 5]}.
Proof.
  assert (H : cb_batchSize (mkTimeout 100 5 (-2) 10) < 0
              ∨ cb_length (mkTimeout 100 5 (-2) 10) ≤ 0
              ∨ cb_length (mkTimeout 100 5 (-2) 10)
                + cb_batchSize (mkTimeout 100 5 (-2) 10)
                ≤ cb_index (mkTimeout 100 5 (-2) 10)) by (left; simpl; lia).
  split; [exact H|].
  exact (X3_empty_window_adds_nothing (mkTimeout 100 5 (-2) 10) {[0; 1; 2; 5]} H).
Defined.

(** X4.  Batch expansions are idempotent and commute: running the same
    expansion twice is the same as running it once, and two expansions give
    the same set in either order. *)
Theorem X4_batches_commute (t1 t2 : Timeout) (s : gset Z) :
  batchLoad t1 (batchLoad t1 s) = batchLoad t1 s
  ∧ batchLoad t1 (batchLoad t2 s) = batchLoad t2 (batchLoad t1 s).
Proof.
  split; apply set_eq; intros x; rewrite !elem_of_batchLoad; tauto.
Qed.

End BatchExtras.

(** ** Invariants of a mounted grid *)

Module TimerFacts.
Import Grid GridFacts BatchFacts.

Lemma StronglySorted_kept {A} (R : A → A → Prop) (Q : A → Prop)
    `{∀ x, Decision (Q x)} (l : list A) :
  StronglySorted R l → StronglySorted R (filter Q l).
Proof.
  induction l as [|x l IH]; intros Hs; [constructor|].
  apply StronglySorted_cons in Hs. destruct Hs as [Hx Hl].
  rewrite filter_cons. destruct (decide (Q x)); [|by apply IH].
  apply StronglySorted_cons. split; [by apply Forall_kept | by apply IH].
Qed.

Lemma none_ready (c : Z) (l : list Timeout) :
  filter (λ t, due t ≤ c) l = [] → filter (λ t, ¬ due t ≤ c) l = l.
Proof.
  induction l as [|t l IH]; [done|].
  rewrite !filter_cons. destruct (decide (due t ≤ c)) as [Hr|Hw]; [done|].
  intros Hl. rewrite decide_True by done. by rewrite IH.
Qed.

Lemma all_ready (c : Z) (l : list Timeout) :
  Forall (λ t, due t ≤ c) l →
  filter (λ t, due t ≤ c) l = l ∧ filter (λ t, ¬ due t ≤ c) l = [].
Proof.
  induction 1 as [|t l Ht Hl [IH1 IH2]]; [done|].
  rewrite !filter_cons. rewrite decide_True by done.
  rewrite decide_False by tauto. by rewrite IH1, IH2.
Qed.

(** In a list ordered by due time the ready timers come first. *)
Lemma ready_then_waiting (c : Z) (l : list Timeout) :
  StronglySorted by_due l →
  filter (λ t, due t ≤ c) l ++ filter (λ t, ¬ due t ≤ c) l = l.
Proof.
  induction l as [|t l IH]; intros Hs; [done|].
  apply StronglySorted_cons in Hs. destruct Hs as [Ht Hl].
  rewrite !filter_cons. destruct (decide (due t ≤ c)) as [Hr|Hw].
  - rewrite decide_False by tauto. simpl. by rewrite IH.
  - rewrite decide_True by done.
    assert (Hnone : filter (λ t, due t ≤ c) l = []).
    { clear IH Hl. induction Ht as [|t' l Ht' _ IH']; [done|].
      rewrite filter_cons. unfold by_due in Ht'.
      rewrite decide_False by lia. done. }
    rewrite Hnone. simpl. by rewrite (none_ready c l Hnone).
Qed.

Lemma count_sound_step (g : State) (e : Event) :
  count_sound g → count_sound (step g e).
Proof.
  unfold count_sound, Js.Set_size. intros Hg. destruct e as [p'|index|dt]; simpl.
  - unfold rerender. destruct (decide _); [|done].
    rewrite count_is_size_initialize. unfold Js.Set_size. lia.
  - unfold handleItemVisible. destruct (decide _); [done|].
    destruct (enableVirtualization (props g)); simpl; unfold Js.Set_size; lia.
  - rewrite loadedCount_elapse.
    pose proof (subseteq_size _ _ (elapse_grows dt g)). lia.
Qed.

Lemma count_sound_run (es : list Event) (g : State) :
  count_sound g → count_sound (run g es).
Proof.
  revert g. induction es as [|e es IH]; intros g Hg; simpl; [done|].
  apply IH. by apply count_sound_step.
Qed.

Lemma count_sound_mount (p : Props) : count_sound (mount p).
Proof.
  unfold count_sound, mount. rewrite count_is_size_initialize.
  unfold Js.Set_size. lia.
Qed.

Lemma plain_step (g : State) (e : Event) :
  keeps_prefetch_off e → plain g → plain (step g e).
Proof.
  intros He (Hev & Hl & Ht & Hc). destruct e as [p'|index|dt]; simpl in *.
  - unfold rerender. destruct (decide _); by split_and!.
  - unfold handleItemVisible. destruct (decide _); [by split_and!|].
    rewrite Hev. by split_and!.
  - unfold elapse. rewrite Ht. by split_and!.
Qed.

Lemma plain_run (es : list Event) (g : State) :
  Forall keeps_prefetch_off es → plain g → plain (run g es).
Proof.
  intros Hes. revert g. induction Hes as [|e es He Hes IH]; intros g Hg; simpl; [done|].
  apply IH. by apply plain_step.
Qed.

Lemma timers_sound_mount (p : Props) : timers_sound (mount p).
Proof. split_and!; [done | constructor | constructor]. Qed.

Lemma timers_sound_step (g : State) (e : Event) :
  timers_sound g → timers_sound (step g e).
Proof.
  intros (Hflag & Hdue & Hsort). destruct e as [p'|index|dt]; simpl.
  - unfold rerender. destruct (decide _); by split_and!.
  - unfold handleItemVisible. destruct (decide _); [by split_and!|].
    destruct (enableVirtualization (props g)); [|by split_and!].
    split_and!; simpl.
    + intros _ Hnil. by apply app_eq_nil in Hnil as [_ ?].
    + apply Forall_app. split; [done|]. repeat constructor; simpl; lia.
    + apply StronglySorted_app. split_and!; [|done|repeat constructor].
      intros t1 t2 Ht1 Ht2. apply list_elem_of_singleton in Ht2. subst t2.
      rewrite Forall_forall in Hdue. apply Hdue in Ht1.
      unfold by_due. simpl. lia.
  - split_and!.
    + rewrite timers_elapse, elapse_unfold, isLoading_fire_all.
      destruct (filter (λ t, due t ≤ now g + Z.of_nat dt) (timers g)) eqn:Hready;
        [|done].
      simpl. rewrite (none_ready _ _ Hready). exact Hflag.
    + rewrite timers_elapse, elapse_unfold, now_fire_all. simpl.
      apply Forall_forall. intros t Ht.
      apply list_elem_of_filter in Ht. destruct Ht as [Hw Ht].
      rewrite Forall_forall in Hdue. apply Hdue in Ht. lia.
    + rewrite timers_elapse. by apply StronglySorted_kept.
Qed.

Lemma timers_sound_run (es : list Event) (g : State) :
  timers_sound g → timers_sound (run g es).
Proof.
  revert g. induction es as [|e es IH]; intros g Hg; simpl; [done|].
  apply IH. by apply timers_sound_step.
Qed.

End TimerFacts.

Section InvariantExtras.
Import Grid GridFacts BatchFacts TimerFacts.

(** X5.  Whatever happens to a mounted grid (renders with any props,
    notifications with any index, timers), the count is never negative and
    never larger than the number of loaded indices. *)
Theorem X5_count_never_overstates (p : Props) (es : list Event) :
  0 ≤ loadedCount (run (mount p) es)
  ≤ Js.Set_size (loadedItems (run (mount p) es)).
Proof. apply (count_sound_run es (mount p)), count_sound_mount. Qed.

(** X6.  A grid mounted with prefetch off, and never rendered with prefetch
    on, never sets the loading flag, never registers a timer, never renders
    a placeholder block, and its count always equals the size of the set. *)
Theorem X6_prefetch_off_is_quiet (p : Props) (es : list Event) :
  enableVirtualization p = false →
  Forall keeps_prefetch_off es →
  isLoading (run (mount p) es) = false
  ∧ timers (run (mount p) es) = []
  ∧ render_placeholders (run (mount p) es) = []
  ∧ loadedCount (run (mount p) es) = Js.Set_size (loadedItems (run (mount p) es)).
Proof.
  intros Hev Hes.
  destruct (plain_run es (mount p) Hes) as (Hev' & Hl & Ht & Hc).
  { by split_and!. }
  split_and!; try done. unfold render_placeholders. by rewrite Hl.
Qed.

Lemma X6_witness :
  enableVirtualization grid10_plain = false
  ∧ Forall keeps_prefetch_off [ItemVisible 5; Elapse 100; ItemVisible 9; Render grid10_plain]
  ∧ timers (run (mount grid10_plain)
                [ItemVisible 5; Elapse 100; ItemVisible 9; Render grid10_plain]) = [].
Proof.
  assert (H1 : enableVirtualization grid10_plain = false) by reflexivity.
  assert (H2 : Forall keeps_prefetch_off
                 [ItemVisible 5; Elapse 100; ItemVisible 9; Render grid10_plain]).
  { repeat constructor. }
  split_and!; [exact H1 | exact H2 |].
  exact (proj1 (proj2 (X6_prefetch_off_is_quiet grid10_plain _ H1 H2))).
Defined.

(** X7.  In every state a mounted grid reaches, a set loading flag has a
    pending timer behind it and every pending timer is due within the next
    100 units.  So 100 units without an event are enough to fire every
    timer, clear the flag and remove the placeholder blocks. *)
Theorem X7_loading_flag_clears (p : Props) (es : list Event) (dt : nat) :
  (isLoading (run (mount p) es) = true → timers (run (mount p) es) ≠ [])
  ∧ Forall (λ t, now (run (mount p) es) < due t ≤ now (run (mount p) es) + 100)
           (timers (run (mount p) es))
  ∧ ((100 ≤ dt)%nat →
     isLoading (elapse dt (run (mount p) es)) = false
     ∧ timers (elapse dt (run (mount p) es)) = []
     ∧ render_placeholders (elapse dt (run (mount p) es)) = []).
Proof.
  destruct (timers_sound_run es (mount p) (timers_sound_mount p))
    as (Hflag & Hdue & _).
  set (g := run (mount p) es) in *.
  split_and!; [done | done |]. intros Hdt.
  assert (Hall : Forall (λ t, due t ≤ now g + Z.of_nat dt) (timers g)).
  { eapply Forall_impl; [exact Hdue|]. simpl. intros t Ht. lia. }
  destruct (all_ready _ _ Hall) as [Hready Hwaiting].
  assert (Hl : isLoading (elapse dt g) = false).
  { rewrite elapse_unfold, isLoading_fire_all, Hready.
    destruct (timers g) as [|t ts] eqn:Hts; [|done].
    simpl. destruct (isLoading g); [|done]. by destruct Hflag. }
  split_and!; [done | |].
  - by rewrite timers_elapse.
  - unfold render_placeholders. by rewrite Hl.
Qed.

Lemma X7_witness :
  (100 ≤ 100)%nat
  ∧ isLoading (run (mount grid10) [ItemVisible 5; Elapse 40; ItemVisible 9]) = true
  ∧ isLoading (elapse 100 (run (mount grid10) [ItemVisible 5; Elapse 40; ItemVisible 9]))
    = false.
Proof.
  assert (H : (100 ≤ 100)%nat) by lia.
  split_and!; [exact H | reflexivity |].
  exact (proj1 (proj2 (proj2 (X7_loading_flag_clears grid10
                                [ItemVisible 5; Elapse 40; ItemVisible 9] 100)) H)).
Defined.

(** X8.  The pending timers of a mounted grid are always listed in order of
    due time, so the timers that fire when the clock advances are a prefix
    of the list: they fire in the order in which they were registered and no
    timer overtakes an earlier one. *)
Theorem X8_timers_fire_in_order (p : Props) (es : list Event) (dt : nat) :
  StronglySorted by_due (timers (run (mount p) es))
  ∧ timers (run (mount p) es)
    = filter (λ t, due t ≤ now (run (mount p) es) + Z.of_nat dt)
             (timers (run (mount p) es))
      ++ timers (elapse dt (run (mount p) es)).
Proof.
  destruct (timers_sound_run es (mount p) (timers_sound_mount p))
    as (_ & _ & Hsort).
  split; [done|]. rewrite timers_elapse. symmetry. by apply ready_then_waiting.
Qed.

(** X9.  The loading flag does not wait for the last batch.  When a second
    item becomes visible while the first batch is pending, the first timer
    clears the flag although the second batch has not been loaded: no
    placeholder is shown while that second timer is still registered. *)
Theorem X9_flag_cleared_while_batch_pending
    (g : State) (i j : Z) (d : nat) :
  enableVirtualization (props g) = true →
  timers g = [] →
  i ∉ loadedItems g → j ∉ loadedItems g → i ≠ j →
  (0 < d < 100)%nat →
  let g' := elapse (100 - d) (handleItemVisible j (elapse d (handleItemVisible i g))) in
  isLoading g' = false
  ∧ render_placeholders g' = []
  ∧ timers g' = [mkTimeout (now g + Z.of_nat d + 100) j (batchSize (props g))
                           (projects_length (props g))].
Proof.
  intros Hev Ht Hi Hj Hij Hd g'.
  assert (H1 : elapse d (handleItemVisible i g)
               = mkState (props g) ({[i]} ∪ loadedItems g)
                         (Js.Set_size ({[i]} ∪ loadedItems g)) true
                         (now g + Z.of_nat d)
                         [mkTimeout (now g + 100) i (batchSize (props g))
                                    (projects_length (props g))]).
  { unfold handleItemVisible. rewrite decide_False by done.
    rewrite Hev, elapse_unfold. simpl. rewrite Ht. simpl.
    rewrite !filter_cons, !filter_nil. simpl.
    repeat case_decide; try lia; done. }
  assert (Hg' : g' = mkState (props g)
                  (batchLoad (mkTimeout (now g + 100) i (batchSize (props g))
                                        (projects_length (props g)))
                             ({[j]} ∪ ({[i]} ∪ loadedItems g)))
                  (Js.Set_size ({[j]} ∪ ({[i]} ∪ loadedItems g))) false
                  (now g + Z.of_nat d + Z.of_nat (100 - d))
                  [mkTimeout (now g + Z.of_nat d + 100) j (batchSize (props g))
                             (projects_length (props g))]).
  { subst g'. rewrite H1. unfold handleItemVisible. simpl.
    rewrite decide_False.
    2:{ intros [Hx%elem_of_singleton|Hx]%elem_of_union; [congruence | done]. }
    rewrite Hev, elapse_unfold. simpl.
    rewrite !filter_cons, !filter_nil. simpl.
    repeat case_decide; try lia; done. }
  rewrite Hg'. split_and!; reflexivity.
Qed.

Lemma X9_witness :
  enableVirtualization (props (mount grid10)) = true
  ∧ timers (mount grid10) = []
  ∧ (0 < 40 < 100)%nat
  ∧ isLoading (elapse (100 - 40)
                 (handleItemVisible 9 (elapse 40 (handleItemVisible 5 (mount grid10)))))
    = false.
Proof.
  assert (H1 : enableVirtualization (props (mount grid10)) = true) by reflexivity.
  assert (H2 : timers (mount grid10) = []) by reflexivity.
  assert (H3 : 5 ∉ loadedItems (mount grid10)).
  { intros H. apply (bool_decide_pack _) in H. vm_compute in H. exact H. }
  assert (H4 : 9 ∉ loadedItems (mount grid10)).
  { intros H. apply (bool_decide_pack _) in H. vm_compute in H. exact H. }
  assert (H5 : (5 : Z) ≠ 9) by discriminate.
  assert (H6 : (0 < 40 < 100)%nat) by lia.
  split; [exact H1|]. split; [exact H2|]. split; [exact H6|].
  destruct (X9_flag_cleared_while_batch_pending (mount grid10) 5 9 40
              H1 H2 H3 H4 H5 H6) as [Hflag _].
  exact Hflag.
Defined.

End InvariantExtras.

(** ** What the grid renders, and re-renders *)

Module RenderFacts.
Import Grid GridFacts.

Lemma render_items_loaded_flags (g : State) :
  item_isLoaded <$> render_items g
  = (λ i : nat, bool_decide (Z.of_nat i ∈ loadedItems g))
      <$> seq 0 (length (projects (props g))).
Proof.
  unfold render_items. rewrite fmap_imap. simpl.
  apply (imap_seq_0 (projects (props g))
           (λ i : nat, bool_decide (Z.of_nat i ∈ loadedItems g))).
Qed.

Lemma elem_of_render_items (g : State) (it : ItemProps) :
  it ∈ render_items g →
  0 ≤ item_index it < projects_length (props g)
  ∧ item_key it = slug (item_project it)
  ∧ item_isLoaded it = bool_decide (item_index it ∈ loadedItems g).
Proof.
  intros Hit. apply elem_of_lookup_imap in Hit.
  destruct Hit as (i & project & -> & Hl). simpl.
  apply lookup_lt_Some in Hl. unfold projects_length. split_and!; [lia|lia|done|done].
Qed.

Lemma render_items_projects (g : State) :
  item_project <$> render_items g = projects (props g).
Proof.
  unfold render_items. rewrite fmap_imap. simpl.
  rewrite (imap_ext _ (const id) (projects (props g))) by done.
  rewrite imap_const. apply list_fmap_id.
Qed.

Lemma props_rerender (p' : Props) (g : State) : props (rerender p' g) = p'.
Proof. unfold rerender. by destruct (decide _). Qed.

Lemma set_props_same (g : State) : set_props (props g) g = g.
Proof. by destruct g. Qed.

End RenderFacts.

Section RenderExtras.
Import Grid GridFacts TimerFacts RenderFacts.

(** X11.  Right after mounting, the wrappers marked loaded are exactly
    those whose index is below [initialLoad]; this holds for every value of
    [initialLoad], also zero, a negative one, or one beyond the list. *)
Theorem X11_initially_loaded_wrappers (p : Props) (it : ItemProps) :
  it ∈ render_items (mount p) →
  (item_isLoaded it = true ↔ item_index it < initialLoad p).
Proof.
  intros Hit. apply elem_of_render_items in Hit.
  destruct Hit as (Hr & _ & ->). rewrite bool_decide_eq_true.
  unfold mount. rewrite elem_of_initialize. simpl in *. lia.
Qed.

Lemma X11_witness :
  mkItemProps "c" (sample 2) 2 true ∈ render_items (mount grid10)
  ∧ (2 < initialLoad grid10).
Proof.
  assert (H : mkItemProps "c" (sample 2) 2 true ∈ render_items (mount grid10)).
  { apply list_elem_of_lookup. exists 2%nat. vm_compute. reflexivity. }
  split; [exact H|].
  exact (proj1 (X11_initially_loaded_wrappers grid10 _ H) eq_refl).
Defined.

(** X12.  The initial-load effect depends on the length of the list, not
    on its content.  A render with a different list of the same length (and
    the same [initialLoad]) keeps the loaded set and the count, so each
    position keeps its loaded mark whichever project now sits there. *)
Theorem X12_same_length_keeps_positions (p' : Props) (g : State) :
  projects_length p' = projects_length (props g) →
  initialLoad p' = initialLoad (props g) →
  loadedItems (rerender p' g) = loadedItems g
  ∧ loadedCount (rerender p' g) = loadedCount g
  ∧ item_isLoaded <$> render_items (rerender p' g)
    = item_isLoaded <$> render_items g
  ∧ item_project <$> render_items (rerender p' g) = projects p'.
Proof.
  intros HL HN. rewrite rerender_same by (unfold deps_changed; tauto).
  split_and!; [done | done | |].
  - rewrite !render_items_loaded_flags. simpl.
    unfold projects_length in HL. by replace (length (projects p'))
      with (length (projects (props g))) by lia.
  - apply render_items_projects.
Qed.

Lemma X12_witness :
  projects_length grid10_reversed = projects_length (props after_batch)
  ∧ initialLoad grid10_reversed = initialLoad (props after_batch)
  ∧ loadedItems (rerender grid10_reversed after_batch) = loadedItems after_batch.
Proof.
  assert (H1 : projects_length grid10_reversed = projects_length (props after_batch))
    by reflexivity.
  assert (H2 : initialLoad grid10_reversed = initialLoad (props after_batch))
    by reflexivity.
  split; [exact H1|]. split; [exact H2|].
  destruct (X12_same_length_keeps_positions grid10_reversed after_batch H1 H2)
    as [H _].
  exact H.
Defined.

(** X13.  Rendering again with the props the grid already has changes
    nothing, and running the initial-load effect twice is the same as running
    it once: a render never sets off a second initialization by itself. *)
Theorem X13_render_twice_is_once (p : Props) (g : State) :
  rerender p (rerender p g) = rerender p g
  ∧ initialize (initialize g) = initialize g
  ∧ rerender (props g) g = g.
Proof.
  assert (Hnoop : ∀ g', rerender (props g') g' = g').
  { intros g'. rewrite rerender_same by (unfold deps_changed; tauto).
    apply set_props_same. }
  split_and!; [|done|apply Hnoop].
  rewrite <- (props_rerender p g) at 1. apply Hnoop.
Qed.

(** X14.  A grid over the empty list stays empty: in every state it
    reaches, the loaded set is empty, the count is zero, nothing is rendered
    and no wrapper exists that could report an index, whatever
    [initialLoad] is. *)
Theorem X14_empty_list_stays_empty (p : Props) (es : list Event) :
  projects p = [] →
  trace_ok 0 (mount p) es →
  loadedItems (run (mount p) es) = ∅
  ∧ loadedCount (run (mount p) es) = 0
  ∧ render_items (run (mount p) es) = []
  ∧ ∀ index, ¬ from_wrapper (run (mount p) es) index.
Proof.
  intros Hp Hok.
  assert (HL : projects_length p = 0) by (unfold projects_length; by rewrite Hp).
  rewrite <- HL in Hok.
  destruct (bounded_run _ es (mount p) Hok (bounded_mount p)) as (Hin & _ & Hlen).
  rewrite HL in Hin, Hlen.
  assert (Hempty : loadedItems (run (mount p) es) = ∅).
  { apply set_eq. intros x. split; [|by intros ?%elem_of_empty].
    intros Hx. apply Hin in Hx. lia. }
  pose proof (count_sound_run es (mount p) (count_sound_mount p)) as Hc.
  unfold count_sound, Js.Set_size in Hc. rewrite Hempty, size_empty in Hc.
  split_and!; [done | lia | |].
  - unfold render_items. unfold projects_length in Hlen.
    destruct (projects (props (run (mount p) es))); [done | simpl in Hlen; lia].
  - intros index Hw. apply from_wrapper_range in Hw. lia.
Qed.

Lemma X14_witness :
  projects grid0 = []
  ∧ trace_ok 0 (mount grid0) [Elapse 100; Render grid0]
  ∧ loadedItems (run (mount grid0) [Elapse 100; Render grid0]) = ∅.
Proof.
  assert (H1 : projects grid0 = []) by reflexivity.
  assert (H2 : trace_ok 0 (mount grid0) [Elapse 100; Render grid0]).
  { cbn [trace_ok event_ok]. split; [exact I|]. split; [reflexivity | exact I]. }
  split; [exact H1|]. split; [exact H2|].
  destruct (X14_empty_list_stays_empty grid0 _ H1 H2) as [H _]. exact H.
Defined.

End RenderExtras.

(** ** The passing of time *)

Module ClockFacts.
Import Grid GridFacts BatchFacts TimerFacts.

Lemma filter_is_nil {A} (P : A → Prop) `{∀ x, Decision (P x)} (l : list A) :
  filter P l = [] ↔ ∀ x, x ∈ l → ¬ P x.
Proof.
  split.
  - intros Hnil x Hx HP. by eapply filter_nil_not_elem_of.
  - induction l as [|x l IH]; intros Hall; [done|].
    rewrite filter_cons. rewrite decide_False by (apply Hall; by left).
    apply IH. intros y Hy. apply Hall. by right.
Qed.

Lemma now_elapse (dt : nat) (g : State) : now (elapse dt g) = now g + Z.of_nat dt.
Proof. rewrite elapse_unfold. by rewrite now_fire_all. Qed.

Lemma isLoading_elapse (dt : nat) (g : State) :
  isLoading (elapse dt g)
  = match filter (λ t, due t ≤ now g + Z.of_nat dt) (timers g) with
    | [] => isLoading g
    | _ :: _ => false
    end.
Proof. rewrite elapse_unfold. by rewrite isLoading_fire_all. Qed.

Lemma elem_of_elapse (dt : nat) (g : State) (x : Z) :
  x ∈ loadedItems (elapse dt g)
  ↔ x ∈ loadedItems g
    ∨ ∃ t, (t ∈ timers g ∧ due t ≤ now g + Z.of_nat dt)
           ∧ Z.max 0 (cb_index t - cb_batchSize t) ≤ x
             ≤ Z.min (cb_length t - 1) (cb_index t + cb_batchSize t).
Proof.
  rewrite elapse_unfold, elem_of_fire_all. simpl.
  split; intros [?|(t & Ht & Hx)]; auto; right; exists t; split; try done.
  - apply list_elem_of_filter in Ht. tauto.
  - apply list_elem_of_filter. tauto.
Qed.

Lemma State_eq (g1 g2 : State) :
  props g1 = props g2 → loadedItems g1 = loadedItems g2 →
  loadedCount g1 = loadedCount g2 → isLoading g1 = isLoading g2 →
  now g1 = now g2 → timers g1 = timers g2 → g1 = g2.
Proof. destruct g1, g2. simpl. by intros -> -> -> -> -> ->. Qed.

End ClockFacts.

Section ClockExtras.
Import Grid GridFacts BatchFacts TimerFacts ClockFacts.

(** X15.  It makes no difference how a stretch of time without events is
    cut up: waiting [a] units and then [b] units leaves the grid in the same
    state as waiting [a + b] units at once, whichever timers are pending. *)
Theorem X15_elapse_composes (a b : nat) (g : State) :
  elapse b (elapse a g) = elapse (a + b) g.
Proof.
  apply State_eq.
  - by rewrite !props_elapse.
  - apply set_eq. intros x. rewrite !elem_of_elapse, timers_elapse, now_elapse.
    split.
    + intros [[?|(t & [Ht Hd] & Hx)]|(t & [Ht Hd] & Hx)]; auto.
      * right. exists t. split; [split; [done|lia] | done].
      * apply list_elem_of_filter in Ht. destruct Ht as [_ Ht].
        right. exists t. split; [split; [done|lia] | done].
    + intros [?|(t & [Ht Hd] & Hx)]; auto.
      destruct (decide (due t ≤ now g + Z.of_nat a)) as [Hr|Hw].
      * left. right. exists t. by split.
      * right. exists t. split; [|done]. split; [|lia].
        apply list_elem_of_filter. by split.
  - by rewrite !loadedCount_elapse.
  - rewrite !isLoading_elapse, timers_elapse, now_elapse.
    destruct (filter (λ t, due t ≤ now g + Z.of_nat (a + b)) (timers g))
      as [|t ts] eqn:Hall.
    + assert (Hnone : ∀ t, t ∈ timers g → ¬ due t ≤ now g + Z.of_nat (a + b)).
      { exact (proj1 (filter_is_nil _ _) Hall). }
      assert (H1 : filter (λ t, due t ≤ now g + Z.of_nat a) (timers g) = []).
      { apply filter_is_nil. intros t Ht Hd. apply (Hnone t Ht). lia. }
      rewrite H1, (none_ready _ _ H1).
      assert (H2 : filter (λ t, due t ≤ now g + Z.of_nat a + Z.of_nat b) (timers g)
                   = []).
      { apply filter_is_nil. intros t Ht Hd. apply (Hnone t Ht). lia. }
      by rewrite H2.
    + assert (Ht : t ∈ timers g ∧ due t ≤ now g + Z.of_nat (a + b)).
      { assert (Hin : t ∈ t :: ts) by (by left). rewrite <- Hall in Hin.
        apply list_elem_of_filter in Hin. tauto. }
      destruct Ht as [Ht Hd].
      destruct (filter (λ t0, due t0 ≤ now g + Z.of_nat a + Z.of_nat b)
                  (filter (λ t0, ¬ due t0 ≤ now g + Z.of_nat a) (timers g)))
        as [|t2 ts2] eqn:H2; [|done].
      destruct (filter (λ t0, due t0 ≤ now g + Z.of_nat a) (timers g))
        as [|t1 ts1] eqn:H1; [|done].
      exfalso. rewrite filter_is_nil in H2. apply (H2 t); [|lia].
      apply list_elem_of_filter. split; [|done].
      rewrite filter_is_nil in H1. by apply H1.
  - rewrite !now_elapse. lia.
  - rewrite !timers_elapse, now_elapse. rewrite list_filter_filter.
    apply list_filter_iff. intros t. lia.
Qed.

End ClockExtras.

(** ** The wrapper, alone and with the grid *)

Module WrapperFacts.
Import Grid GridFacts Item ItemFacts App.

Lemma flag_from_hidden (index : Z) (notifications : list bool) :
  fst (observe index notifications false) = existsb id notifications.
Proof. rewrite observe_from_hidden. by destruct (existsb id notifications). Qed.

Lemma notify_from_hidden (index : Z) (notifications : list bool) (g : State) :
  notify index notifications false g
  = (existsb id notifications,
     if existsb id notifications then handleItemVisible index g else g).
Proof.
  unfold notify. rewrite observe_from_hidden.
  by destruct (existsb id notifications).
Qed.

Lemma shown_card (project : Project) (index : Z) (flag : bool) (g : State) :
  shown project index flag g = ProjectCard project
  ↔ index ∈ loadedItems g ∨ flag = true.
Proof.
  unfold shown, render.
  destruct (decide (index ∈ loadedItems g)) as [Hin|Hout].
  - rewrite bool_decide_eq_true_2 by done. simpl. tauto.
  - rewrite bool_decide_eq_false_2 by done. destruct flag; simpl; intuition congruence.
Qed.

End WrapperFacts.

Section WrapperExtras.
Import Grid GridFacts Item ItemFacts App WrapperFacts.

(** X16.  The wrapper's flag is never cleared, so a wrapper that has been
    visible once shows the real card from then on, whatever notifications
    follow and whatever [isLoaded] the grid passes, also after the grid has
    dropped the index in a re-initialization. *)
Theorem X16_card_stays_after_first_visibility
    (project : Project) (index : Z) (notifications later : list bool)
    (isLoaded : bool) :
  fst (observe index notifications false) = true →
  fst (observe index (notifications ++ later) false) = true
  ∧ render project isLoaded (fst (observe index (notifications ++ later) false))
    = ProjectCard project.
Proof.
  rewrite !flag_from_hidden, existsb_app. intros ->. simpl.
  split; [done|]. unfold render. by rewrite orb_true_r.
Qed.

Lemma X16_witness :
  fst (observe 4 [false; true] false) = true
  ∧ render (sample 4) false (fst (observe 4 ([false; true] ++ [false; false]) false))
    = ProjectCard (sample 4).
Proof.
  assert (H : fst (observe 4 [false; true] false) = true) by reflexivity.
  split; [exact H|].
  destruct (X16_card_stays_after_first_visibility (sample 4) 4 [false; true]
              [false; false] false H) as [_ Hr].
  exact Hr.
Defined.

(** X18.  A wrapper that starts hidden hands its index to the grid exactly
    when one of its notifications is intersecting; the grid is otherwise
    left as it was.  Afterwards the wrapper shows the skeleton exactly when
    it has never been intersecting and its index is not loaded. *)
Theorem X18_wrapper_drives_grid
    (project : Project) (index : Z) (notifications : list bool) (g : State) :
  notify index notifications false g
  = (existsb id notifications,
     if existsb id notifications then handleItemVisible index g else g)
  ∧ (shown project index (notify index notifications false g).1
           (notify index notifications false g).2 = ProjectCardSkeleton
     ↔ existsb id notifications = false ∧ index ∉ loadedItems g).
Proof.
  split; [apply notify_from_hidden|].
  rewrite notify_from_hidden. simpl.
  destruct (existsb id notifications); simpl.
  - split; [|intros [? _]; discriminate].
    intros H. exfalso.
    assert (Hc : shown project index true (handleItemVisible index g)
                 = ProjectCard project) by (apply shown_card; auto).
    congruence.
  - split.
    + intros H. split; [done|]. intros Hin.
      assert (Hc : shown project index false g = ProjectCard project)
        by (apply shown_card; auto).
      congruence.
    + intros [_ Hout]. unfold shown, render.
      by rewrite bool_decide_eq_false_2.
Qed.

(** X19.  Preloading: when a batch has been triggered at [index], every
    wrapper whose position lies in the clamped window shows the real card
    once the delay has passed, although it has never been visible itself. *)
Theorem X19_neighbours_show_card_unseen
    (project : Project) (g : State) (index position : Z) (dt : nat) :
  enableVirtualization (props g) = true →
  index ∉ loadedItems g →
  (100 ≤ dt)%nat →
  Z.max 0 (index - batchSize (props g)) ≤ position
  ≤ Z.min (projects_length (props g) - 1) (index + batchSize (props g)) →
  shown project position false (elapse dt (handleItemVisible index g))
  = ProjectCard project.
Proof.
  intros Hev Hout Hdt Hpos. apply shown_card. left.
  apply (elapse_window dt
           (mkTimeout (now g + 100) index (batchSize (props g))
                      (projects_length (props g)))).
  - rewrite handleItemVisible_registers by done.
    apply elem_of_app. right. by apply list_elem_of_singleton.
  - rewrite now_handleItemVisible. simpl. lia.
  - exact Hpos.
Qed.

Lemma X19_witness :
  enableVirtualization (props (mount grid10)) = true
  ∧ (100 ≤ 100)%nat
  ∧ shown (sample 7) 7 false (elapse 100 (handleItemVisible 5 (mount grid10)))
    = ProjectCard (sample 7).
Proof.
  assert (H1 : enableVirtualization (props (mount grid10)) = true) by reflexivity.
  assert (H2 : 5 ∉ loadedItems (mount grid10)).
  { intros H. apply (bool_decide_pack _) in H. vm_compute in H. exact H. }
  assert (H3 : (100 ≤ 100)%nat) by lia.
  assert (H4 : Z.max 0 (5 - batchSize (props (mount grid10))) ≤ 7
               ≤ Z.min (projects_length (props (mount grid10)) - 1)
                       (5 + batchSize (props (mount grid10)))).
  { vm_compute. split; discriminate. }
  split; [exact H1|]. split; [exact H3|].
  exact (X19_neighbours_show_card_unseen (sample 7) (mount grid10) 5 7 100
           H1 H2 H3 H4).
Defined.

End WrapperExtras.

(** ** The observer hook *)

Module ObserverFacts.
Import Observer.

Lemma unobserve_only (observer : nat) (el : Element) :
  unobserve observer el [(observer, el)] = [].
Proof. unfold unobserve. rewrite filter_cons, decide_False by tauto. done. Qed.

Lemma tidy_commit (element : option Element) (options : Options) (changed : bool)
    (h : Hook) :
  tidy h → tidy (commit element options changed h).
Proof.
  unfold tidy, commit. destruct h as [cur made obs [[o [el|]]|]]; simpl.
  - intros [-> Hlast]. destruct changed; simpl; [|done].
    rewrite unobserve_only. rewrite length_app. simpl.
    destruct element; simpl; split; try done; lia.
  - intros ->. destruct changed; simpl; [|done].
    rewrite length_app. simpl.
    destruct element; simpl; split; try done; lia.
  - intros ->. rewrite length_app. simpl.
    destruct element; simpl; split; try done; lia.
Qed.

Lemma tidy_lifetime_from (commits : list (option Element * Options * bool)) (h : Hook) :
  tidy h → tidy (foldl (λ h c, commit c.1.1 c.1.2 c.2 h) h commits).
Proof.
  revert h. induction commits as [|c commits IH]; intros h Hh; simpl; [done|].
  apply IH. by apply tidy_commit.
Qed.

Lemma tidy_lifetime (commits : list (option Element * Options * bool)) :
  tidy (lifetime commits).
Proof. apply tidy_lifetime_from. reflexivity. Qed.

Lemma lifetime_snoc (commits : list (option Element * Options * bool))
    (c : option Element * Options * bool) :
  lifetime (commits ++ [c]) = commit c.1.1 c.1.2 c.2 (lifetime commits).
Proof. unfold lifetime. by rewrite foldl_app. Qed.

Lemma length_created_commit (el : Element) (options : Options) (h : Hook) :
  created (commit (Some el) options true h) = created h ++ [init_of options].
Proof.
  unfold commit. destruct h as [cur made obs [[o [e|]]|]]; reflexivity.
Qed.

Lemma commit_resubscribes (el : Element) (options : Options) (h : Hook) (o : nat) :
  cleanup h = Some (o, Some el) →
  observations h = [(o, el)] →
  commit (Some el) options true h
  = mkHook (Some el) (created h ++ [init_of options])
           [(length (created h), el)] (Some (length (created h), Some el)).
Proof.
  destruct h as [cur made obs cl]. simpl. intros -> ->.
  unfold commit, run_cleanup, effect. simpl. by rewrite unobserve_only.
Qed.

End ObserverFacts.

Section ObserverExtras.
Import Observer ObserverFacts.

(** X20.  However often the component commits, with or without changed
    dependencies and whatever the ref points to, the hook keeps at most one
    observation alive, and it belongs to the observer constructed last;
    unmounting removes it, although the ref is already detached when the
    cleanup runs. *)
Theorem X20_at_most_one_observation
    (commits : list (option Element * Options * bool)) :
  (length (observations (lifetime commits)) ≤ 1)%nat
  ∧ (∀ observer el, (observer, el) ∈ observations (lifetime commits) →
                    S observer = length (created (lifetime commits)))
  ∧ observations (unmount (lifetime commits)) = [].
Proof.
  pose proof (tidy_lifetime commits) as Ht. unfold tidy in Ht.
  unfold unmount, run_cleanup. simpl.
  destruct (lifetime commits) as [cur made obs [[o [el|]]|]]; simpl in *.
  - destruct Ht as [-> Hlast]. split_and!; [done| |apply unobserve_only].
    intros o' el' Hin. apply list_elem_of_singleton in Hin. congruence.
  - subst obs. split_and!; [simpl; lia| |done].
    intros o' el' Hin. by apply elem_of_nil in Hin.
  - subst obs. split_and!; [simpl; lia| |done].
    intros o' el' Hin. by apply elem_of_nil in Hin.
Qed.

Lemma X20_witness :
  (1%nat, 3%nat)
    ∈ observations (lifetime [(Some 3%nat, no_options, true);
                              (Some 3%nat, no_options, true)])
  ∧ 2%nat = length (created (lifetime [(Some 3%nat, no_options, true);
                                       (Some 3%nat, no_options, true)])).
Proof.
  assert (H : (1%nat, 3%nat)
                ∈ observations (lifetime [(Some 3%nat, no_options, true);
                                          (Some 3%nat, no_options, true)])).
  { vm_compute. apply list_elem_of_here. }
  split; [exact H|].
  destruct (X20_at_most_one_observation
              [(Some 3%nat, no_options, true); (Some 3%nat, no_options, true)])
    as (_ & Hlast & _).
  exact (Hlast 1%nat 3%nat H).
Defined.

(** X21.  A wrapper that has rendered [n] times has constructed [n]
    observers, one per render, each with no root, margin "100px" and
    threshold 0.1; only the one of the latest render still observes the
    wrapper's element. *)
Theorem X21_wrapper_resubscribes_every_render (el : Element) (n : nat) :
  created (item_lifetime el (S n))
  = replicate (S n) (mkInit None "100px" (1 # 10)%Q)
  ∧ observations (item_lifetime el (S n)) = [(n, el)]
  ∧ cleanup (item_lifetime el (S n)) = Some (n, Some el).
Proof.
  unfold item_lifetime. induction n as [|n (IHc & IHo & IHk)].
  - by split_and!.
  - rewrite replicate_S_end, lifetime_snoc. cbn [fst snd].
    rewrite (commit_resubscribes el no_options _ n IHk IHo). cbn [created observations cleanup].
    rewrite IHc, length_replicate. split_and!; [|done|done].
    by rewrite <- replicate_S_end.
Qed.

End ObserverExtras.

(** ** The page *)

Module PageMore.
Import Page PageFacts.

Lemma of_type_sublist (t : string) (ps : list Project) : of_type t ps `sublist_of` ps.
Proof.
  unfold of_type. induction ps as [|project ps IH]; simpl; [constructor|].
  destruct (String.eqb (type project) t); by constructor.
Qed.

Lemma section_grids_section (text : string) (ps : list Project) :
  section_grids (section text ps)
  = match ps with [] => [] | _ :: _ => [Grid.with_defaults ps] end.
Proof. by destruct ps. Qed.

Lemma of_type_cons (t : string) (project : Project) (ps : list Project) :
  of_type t (project :: ps)
  = if String.eqb (type project) t then project :: of_type t ps else of_type t ps.
Proof. reflexivity. Qed.

End PageMore.

Section PageExtras.
Import Page PageFacts PageMore.

(** X22.  The page shows the error panel exactly when the fetch was
    rejected with anything but an [Error] whose message is empty; the panel
    then reads "Error loading projects: " followed by the text, and a
    fulfilled fetch never shows it. *)
Theorem X22_when_the_error_panel_shows (r : FetchResult) :
  ((∃ label text, ProjectsPage r = ErrorPanel label text)
   ↔ ∃ err, r = Rejected err ∧ err ≠ ErrorInstance "")
  ∧ (∀ label text, ProjectsPage r = ErrorPanel label text →
                   label = "Error loading projects: "%string ∧ text ≠ ""%string).
Proof.
  destruct r as [ps|[message|v]].
  - split.
    + split; [intros (l & t & H); discriminate | intros (e & H & _); discriminate].
    + intros l t H. discriminate.
  - unfold ProjectsPage. simpl.
    destruct (String.eqb_spec message "") as [->|Hne]; simpl.
    + split.
      * split; [intros (l & t & H); discriminate|].
        intros (e & H & Hne). congruence.
      * intros l t H. discriminate.
    + split.
      * split; [|eauto]. intros _. eexists. split; [done|]. congruence.
      * intros l t H. inversion H; subst. done.
  - split.
    + split; [|unfold ProjectsPage; simpl; eauto].
      intros _. eexists. split; [done|]. discriminate.
    + intros l t H. inversion H. split; [done | discriminate].
Qed.

Lemma X22_witness :
  ProjectsPage (Rejected (NotAnError (JsString "")))
  = ErrorPanel "Error loading projects: " "An unknown error occurred"
  ∧ ("Error loading projects: "%string = "Error loading projects: "%string
     ∧ "An unknown error occurred"%string ≠ ""%string).
Proof.
  assert (H : ProjectsPage (Rejected (NotAnError (JsString "")))
              = ErrorPanel "Error loading projects: " "An unknown error occurred")
    by reflexivity.
  split; [exact H|].
  exact (proj2 (X22_when_the_error_panel_shows _) _ _ H).
Defined.

(** X23.  After a fulfilled fetch a section shows its "no projects" text
    exactly when no fetched project has the section's type, whatever other
    types occur in the list. *)
Theorem X23_empty_text_iff_no_project_of_type (ps : list Project) :
  ∃ uiSection systemSection,
    ProjectsPage (Fulfilled ps) = ProjectsView uiSection systemSection
    ∧ (uiSection = NoProjectsFound "No UI projects found."
       ↔ ∀ project, project ∈ ps → type project ≠ "ui"%string)
    ∧ (systemSection = NoProjectsFound "No system projects found."
       ↔ ∀ project, project ∈ ps → type project ≠ "system"%string).
Proof.
  assert (Hsec : ∀ text t,
             section text (of_type t ps) = NoProjectsFound text
             ↔ ∀ project, project ∈ ps → type project ≠ t).
  { intros text t. rewrite section_cases.
    destruct (of_type t ps) as [|q qs] eqn:Hof.
    - split; [|done]. intros _ project Hin Hty.
      assert (Hq : project ∈ of_type t ps) by (apply elem_of_of_type; done).
      rewrite Hof in Hq. by apply elem_of_nil in Hq.
    - split; [discriminate|]. intros Hnone. exfalso.
      assert (Hq : q ∈ of_type t ps) by (rewrite Hof; by left).
      apply elem_of_of_type in Hq. destruct Hq as [Hin Hty].
      by apply (Hnone q Hin). }
  eexists _, _. split; [apply ProjectsPage_fulfilled|].
  split; apply Hsec.
Qed.

(** X24.  Grouping neither reorders nor duplicates nor invents projects:
    each group is a sublist of the fetched list, and the fetched list is a
    rearrangement of the "ui" group, the "system" group and the projects of
    any other type, which appear in neither section. *)
Theorem X24_groups_keep_order_and_multiplicity (ps : list Project) :
  of_type "ui" ps `sublist_of` ps
  ∧ of_type "system" ps `sublist_of` ps
  ∧ ps ≡ₚ of_type "ui" ps ++ of_type "system" ps
          ++ filter (λ project, type project ≠ "ui"%string
                                ∧ type project ≠ "system"%string) ps.
Proof.
  split_and!; [apply of_type_sublist..|].
  induction ps as [|project ps IH]; [done|].
  rewrite !of_type_cons, filter_cons.
  destruct (String.eqb_spec (type project) "ui") as [Hu|Hu].
  - rewrite decide_False by tauto.
    destruct (String.eqb_spec (type project) "system") as [Hs|Hs].
    { rewrite Hu in Hs. discriminate. }
    simpl. by constructor.
  - destruct (String.eqb_spec (type project) "system") as [Hs|Hs].
    + rewrite decide_False by tauto.
      rewrite <- app_comm_cons, <- Permutation_middle. by constructor.
    + rewrite decide_True by done.
      rewrite app_assoc, <- Permutation_middle, <- app_assoc. by constructor.
Qed.

(** X25.  The page mounts at most two grids, and only after a fulfilled
    fetch.  Each one gets a non-empty list of projects of a single type and
    the default configuration, with prefetch off: it shows its first card
    at once and, whatever becomes visible and however much time passes,
    never sets the loading flag, never renders a placeholder block, and
    keeps its count equal to the number of loaded indices. *)
Theorem X25_grids_mounted_by_the_page
    (r : FetchResult) (grid : Grid.Props) (es : list Grid.Event) :
  grid ∈ mounted_grids (ProjectsPage r) →
  Forall Grid.keeps_prefetch_off es →
  (length (mounted_grids (ProjectsPage r)) ≤ 2)%nat
  ∧ (∃ ps t, r = Fulfilled ps ∧ (t = "ui"%string ∨ t = "system"%string)
             ∧ grid = Grid.with_defaults (of_type t ps))
  ∧ Grid.projects grid ≠ []
  ∧ 0 ∈ Grid.loadedItems (Grid.mount grid)
  ∧ Grid.isLoading (Grid.run (Grid.mount grid) es) = false
  ∧ Grid.render_placeholders (Grid.run (Grid.mount grid) es) = []
  ∧ Grid.loadedCount (Grid.run (Grid.mount grid) es)
    = Js.Set_size (Grid.loadedItems (Grid.run (Grid.mount grid) es)).
Proof.
  intros Hin Hes.
  assert (Hfrom : ∃ ps t, r = Fulfilled ps ∧ (t = "ui"%string ∨ t = "system"%string)
                          ∧ grid = Grid.with_defaults (of_type t ps)
                          ∧ of_type t ps ≠ []).
  { destruct r as [ps|err].
    - rewrite ProjectsPage_fulfilled in Hin. simpl in Hin.
      rewrite !section_grids_section in Hin.
      apply elem_of_app in Hin. destruct Hin as [Hin|Hin].
      + exists ps, "ui"%string. destruct (of_type "ui" ps) eqn:Hof.
        * by apply elem_of_nil in Hin.
        * apply list_elem_of_singleton in Hin. split_and!; auto.
      + exists ps, "system"%string. destruct (of_type "system" ps) eqn:Hof.
        * by apply elem_of_nil in Hin.
        * apply list_elem_of_singleton in Hin. split_and!; auto.
    - destruct (rejected_mounts_no_grid err) as [_ Hnone].
      rewrite Hnone in Hin. by apply elem_of_nil in Hin. }
  destruct Hfrom as (ps & t & -> & Ht & -> & Hne).
  assert (Hplain : Grid.plain (Grid.run (Grid.mount (Grid.with_defaults (of_type t ps))) es)).
  { apply TimerFacts.plain_run; [done|]. by split_and!. }
  destruct Hplain as (_ & Hl & _ & Hc).
  split_and!.
  - rewrite ProjectsPage_fulfilled. simpl. rewrite !section_grids_section.
    destruct (of_type "ui" ps), (of_type "system" ps); simpl; lia.
  - eauto.
  - done.
  - unfold Grid.mount. apply GridFacts.elem_of_initialize. simpl.
    unfold Grid.projects_length. simpl.
    destruct (of_type t ps); [done | simpl; lia].
  - done.
  - unfold Grid.render_placeholders. by rewrite Hl.
  - done.
Qed.

Lemma X25_witness :
  Grid.with_defaults [sample 1] ∈ mounted_grids (ProjectsPage (Fulfilled (samples 3)))
  ∧ Forall Grid.keeps_prefetch_off [Grid.ItemVisible 0; Grid.Elapse 100]
  ∧ Grid.isLoading (Grid.run (Grid.mount (Grid.with_defaults [sample 1]))
                             [Grid.ItemVisible 0; Grid.Elapse 100]) = false.
Proof.
  assert (H1 : Grid.with_defaults [sample 1]
               ∈ mounted_grids (ProjectsPage (Fulfilled (samples 3)))).
  { vm_compute. apply list_elem_of_further, list_elem_of_here. }
  assert (H2 : Forall Grid.keeps_prefetch_off [Grid.ItemVisible 0; Grid.Elapse 100]).
  { repeat constructor. }
  split; [exact H1|]. split; [exact H2|].
  destruct (X25_grids_mounted_by_the_page _ _ _ H1 H2) as (_ & _ & _ & _ & H & _).
  exact H.
Defined.

End PageExtras.

(** ** More on the loop, the direct add and the placeholders *)

Module AddFacts.
Import Grid GridFacts App.

Lemma elem_of_deliver (calls : list Z) (g : State) (x : Z) :
  x ∈ loadedItems (deliver calls g) ↔ x ∈ calls ∨ x ∈ loadedItems g.
Proof.
  unfold deliver. revert g. induction calls as [|i calls IH]; intros g; simpl.
  - split; [auto|]. intros [H|H]; [by apply elem_of_nil in H | done].
  - rewrite IH, loadedItems_handleItemVisible, elem_of_union, elem_of_singleton,
      elem_of_cons. tauto.
Qed.

End AddFacts.

Section AddExtras.
Import Grid GridFacts App AddFacts.

(** X26.  The batch loop leaves through its own exit test: its number of
    iterations is the length of the clamped window, and allowing it any
    larger number of iterations gives the same set. *)
Theorem X26_batch_loop_terminates (t : Timeout) (s : gset Z) (fuel : nat) :
  (Js.trip_count (Z.max 0 (cb_index t - cb_batchSize t))
                 (Z.min (cb_length t - 1) (cb_index t + cb_batchSize t))
   ≤ fuel)%nat →
  Js.for_upto fuel (Z.max 0 (cb_index t - cb_batchSize t))
              (Z.min (cb_length t - 1) (cb_index t + cb_batchSize t))
              (λ i batchSet, {[i]} ∪ batchSet) s
  = batchLoad t s.
Proof. intros Hf. unfold batchLoad. by apply JsFacts.for_upto_fuel_enough. Qed.

Lemma X26_witness :
  (Js.trip_count (Z.max 0 (5 - 2)) (Z.min (10 - 1) (5 + 2)) ≤ 1000)%nat
  ∧ Js.for_upto 1000 (Z.max 0 (5 - 2)) (Z.min (10 - 1) (5 + 2))
                (λ i batchSet, {[i]} ∪ batchSet) ({[0; 1; 2; 5]} : gset Z)
    = batchLoad (mkTimeout 100 5 2 10) {[0; 1; 2; 5]}.
Proof.
  assert (H : (Js.trip_count (Z.max 0 (5 - 2)) (Z.min (10 - 1) (5 + 2)) ≤ 1000)%nat)
    by (vm_compute; lia).
  split; [exact H|].
  exact (X26_batch_loop_terminates (mkTimeout 100 5 2 10) {[0; 1; 2; 5]} 1000 H).
Defined.

(** X27.  After any series of calls to [handleItemVisible] the loaded set
    is the earlier set together with the indices passed, so the order of the
    calls and repeated indices make no difference to it. *)
Theorem X27_visible_indices_accumulate (calls calls' : list Z) (g : State) :
  (∀ x, x ∈ loadedItems (deliver calls g) ↔ x ∈ calls ∨ x ∈ loadedItems g)
  ∧ ((∀ x, x ∈ calls ↔ x ∈ calls') →
     loadedItems (deliver calls g) = loadedItems (deliver calls' g)).
Proof.
  split; [intros x; apply elem_of_deliver|].
  intros Hsame. apply set_eq. intros x. rewrite !elem_of_deliver, Hsame. done.
Qed.

Lemma X27_witness :
  (∀ x : Z, x ∈ [5; 9; 5] ↔ x ∈ [9; 5])
  ∧ loadedItems (deliver [5; 9; 5] (mount grid10))
    = loadedItems (deliver [9; 5] (mount grid10)).
Proof.
  assert (H : ∀ x : Z, x ∈ [5; 9; 5] ↔ x ∈ [9; 5]).
  { intros x. rewrite !elem_of_cons. split; intros H; tauto. }
  split; [exact H|].
  exact (proj2 (X27_visible_indices_accumulate [5; 9; 5] [9; 5] (mount grid10)) H).
Defined.

(** X28.  Adding an index that is not yet loaded sets the count to the
    size of the set before the call plus one, which is the size of the set
    after it: a count left stale by a batch expansion is exact again. *)
Theorem X28_direct_add_makes_count_exact (index : Z) (g : State) :
  index ∉ loadedItems g →
  loadedCount (handleItemVisible index g) = Js.Set_size (loadedItems g) + 1
  ∧ loadedCount (handleItemVisible index g)
    = Js.Set_size (loadedItems (handleItemVisible index g)).
Proof.
  intros Hout. rewrite (count_is_size_after_add index g Hout).
  split; [|done]. rewrite loadedItems_handleItemVisible. unfold Js.Set_size.
  rewrite size_union by (by apply disjoint_singleton_l).
  rewrite size_singleton. lia.
Qed.

Lemma X28_witness :
  ¬ 9 ∈ loadedItems after_batch
  ∧ loadedCount after_batch = 4
  ∧ loadedCount (handleItemVisible 9 after_batch) = 8 + 1.
Proof.
  assert (H : 9 ∉ loadedItems after_batch).
  { intros H. apply (bool_decide_pack _) in H. vm_compute in H. exact H. }
  split; [exact H|]. split; [reflexivity|].
  destruct (X28_direct_add_makes_count_exact 9 after_batch H) as [Hc _].
  exact Hc.
Defined.

(** X29.  The number of placeholder blocks is [batchSize] while the loading
    flag is set and prefetch is enabled, and zero otherwise; a batch size
    that is zero or negative gives no block. *)
Theorem X29_placeholder_count (g : State) :
  Z.of_nat (length (render_placeholders g))
  = (if isLoading g && enableVirtualization (props g)
     then Z.max 0 (batchSize (props g)) else 0)
  ∧ NoDup (render_placeholders g).
Proof.
  unfold render_placeholders.
  destruct (isLoading g && enableVirtualization (props g)).
  - split; [apply JsFacts.length_Array_from_length
           | apply JsFacts.NoDup_Array_from_length].
  - split; [done | constructor].
Qed.

End AddExtras.
